(** * Energy price forecasting pipeline: a shallow embedding

    The Python sources ([data_ingestion.py], [arimax.py], [arimax_garch.py],
    [vecm_garch.py], [sentiment_integration.py], [forecasting_pipeline.py]) are
    glue code over pandas, numpy, statsmodels, arch and transformers.  The
    embedding keeps the shape of that code:

    - a Python [float] is an IEEE binary64 value, here Rocq's primitive
      [float]; the missing-value marker is [nan];
    - a raised exception is the [Raise] case of the [result] monad;
    - a pandas [Index], [Series] and [DataFrame] are records over lists;
    - an optional import ([ARIMA], [arch_model], [VECM], [pipeline]) is an
      [option]: [None] is what the [except ImportError] branch binds;
    - the objects handed back by the estimation libraries are records of
      their methods. *)

From Stdlib Require Import String Ascii ZArith List Bool Lia Floats.
Import ListNotations.

Set Warnings "-inexact-float".

Local Open Scope string_scope.
Local Open Scope list_scope.
Local Open Scope Z_scope.

(** ** Python values and exceptions *)

Inductive exn : Type :=
| FileNotFoundError
| KeyError (key : string)
| IndexError
| ValueError
| TypeError
| AttributeError
| OverflowError
| BackendError (msg : string).

Inductive result (A : Type) : Type :=
| Ok (a : A)
| Raise (e : exn).

Arguments Ok {A} a.
Arguments Raise {A} e.

Definition bind {A B : Type} (m : result A) (k : A -> result B) : result B :=
  match m with
  | Ok a => k a
  | Raise e => Raise e
  end.

Notation "x <- m ;; k" := (bind m (fun x => k))
  (at level 61, m at next level, right associativity).

Fixpoint mapM {A B : Type} (f : A -> result B) (l : list A) : result (list B) :=
  match l with
  | [] => Ok []
  | a :: l' =>
      b <- f a ;;
      bs <- mapM f l' ;;
      Ok (b :: bs)
  end.

(** [[x] * n]: list repetition; a negative count gives the empty list. *)
Definition py_repeat {A : Type} (x : A) (n : Z) : list A := repeat x (Z.to_nat n).

(** [xs[start:]] on a sequence of length [len]: the position the slice
    starts at, after Python's treatment of a negative or too large start. *)
Definition slice_start (len start : Z) : nat :=
  Z.to_nat (if start <? 0 then Z.max 0 (len + start) else Z.min start len).

Definition slice_from {A : Type} (l : list A) (start : Z) : list A :=
  skipn (slice_start (Z.of_nat (length l)) start) l.

(** [str.lower], on the ASCII letters. *)
Definition lower_ascii (c : ascii) : ascii :=
  let n := nat_of_ascii c in
  if (Nat.leb 65 n && Nat.leb n 90)%bool then ascii_of_nat (n + 32) else c.

Fixpoint lower (s : string) : string :=
  match s with
  | EmptyString => EmptyString
  | String c s' => String (lower_ascii c) (lower s')
  end.

(** ** Floats *)

Definition nan : float := PrimFloat.nan.

(** [np.maximum(a, b)] on two float64 scalars: NaN as soon as one of them
    is NaN, else the larger one.  Of two operands that compare equal the
    second is returned, so [np.maximum(0, -0.0)] is [-0.0]. *)
Definition np_maximum (a b : float) : float :=
  if (PrimFloat.is_nan a || PrimFloat.ltb b a)%bool then a else b.

(** ** pandas: index, series, frame *)

Definition timestamp := Z.

(** One day, in the nanoseconds a pandas timestamp counts. *)
Definition Day : Z := 86400000000000.

Inductive Index : Type :=
| RangeIndex (stop : nat)
| DatetimeIndex (labels : list timestamp) (freq : option Z)
| ObjectIndex (names : list string).

Definition index_len (i : Index) : nat :=
  match i with
  | RangeIndex n => n
  | DatetimeIndex l _ => length l
  | ObjectIndex l => length l
  end.

Definition list_Z_eqb (a b : list Z) : bool :=
  if list_eq_dec Z.eq_dec a b then true else false.

Definition option_Z_eqb (a b : option Z) : bool :=
  match a, b with
  | Some x, Some y => Z.eqb x y
  | None, None => true
  | _, _ => false
  end.

Definition list_string_eqb (a b : list string) : bool :=
  if list_eq_dec string_dec a b then true else false.

(** [Index.identical]: same kind, same labels, same frequency. *)
Definition identical (a b : Index) : bool :=
  match a, b with
  | RangeIndex n, RangeIndex m => Nat.eqb n m
  | DatetimeIndex l f, DatetimeIndex l' f' => (list_Z_eqb l l' && option_Z_eqb f f')%bool
  | ObjectIndex l, ObjectIndex l' => list_string_eqb l l'
  | _, _ => false
  end.

(** A cell of a delimited file, by what the reader and the conversions
    make of it:
    - [RNum v]: a number, read as [v];
    - [RMissing]: an empty (NA) cell;
    - [RText s]: text that is no number, neither for the reader, nor for
      [pd.to_numeric], nor for Python's [float()], which raises
      [ValueError] on it;
    - [RFloatText s v]: text that neither the reader nor [pd.to_numeric]
      takes for a number, but that Python's [float()] reads as [v], such as
      [1_000];
    - [RBool b]: one of the literals [True] and [False]; the reader takes
      it for a boolean in a column that holds nothing else but empty cells,
      and for text in any other column. *)
Inductive raw_cell : Type :=
| RNum (v : float)
| RMissing
| RText (s : string)
| RFloatText (s : string) (v : float)
| RBool (b : bool).

(** A column is either numeric or of dtype object.  The values of a
    numeric column are kept as floats: an integer column holds whole
    numbers, a boolean column 1.0 for [True] and 0.0 for [False]; which of
    [float64], [int64] and [bool] pandas gives the column is not tracked. *)
Inductive column : Type :=
| FloatCol (vs : list float)
| ObjectCol (vs : list raw_cell).

Definition column_len (c : column) : nat :=
  match c with
  | FloatCol v => length v
  | ObjectCol v => length v
  end.

Record Series : Type := mkSeries {
  s_index : Index;
  s_values : column
}.

Record DataFrame : Type := mkDataFrame {
  df_index : Index;
  df_columns : list string;
  df_data : list column
}.

(** [df.shape] *)
Definition shape (df : DataFrame) : nat * nat :=
  (index_len (df_index df), length (df_columns df)).

(** [pd.Series(values)]: no index given, so the default positional one. *)
Definition pd_Series (values : list float) : Series :=
  {| s_index := RangeIndex (length values); s_values := FloatCol values |}.

(** [True] is 1 and [False] is 0. *)
Definition bool_value (b : bool) : float := if b then 1%float else 0%float.

(** [pd.to_numeric(col, errors="coerce")] *)
Definition coerce_cell (c : raw_cell) : float :=
  match c with
  | RNum v => v
  | RMissing => nan
  | RText _ => nan
  | RFloatText _ _ => nan
  | RBool b => bool_value b
  end.

Definition to_numeric_coerce (c : column) : column :=
  match c with
  | FloatCol v => FloatCol v
  | ObjectCol cells => FloatCol (map coerce_cell cells)
  end.

(** [col.astype(float)]: every value goes through Python's [float()],
    which raises on text it cannot read. *)
Definition cell_to_float (c : raw_cell) : result float :=
  match c with
  | RNum v => Ok v
  | RMissing => Ok nan
  | RText _ => Raise ValueError
  | RFloatText _ v => Ok v
  | RBool b => Ok (bool_value b)
  end.

Definition astype_float (c : column) : result (list float) :=
  match c with
  | FloatCol v => Ok v
  | ObjectCol cells => mapM cell_to_float cells
  end.

(** Position of a name in [df.columns]. *)
Fixpoint position (name : string) (names : list string) : option nat :=
  match names with
  | [] => None
  | n :: names' =>
      if String.eqb name n then Some O
      else option_map S (position name names')
  end.

(** [df[name]] *)
Definition getitem (df : DataFrame) (name : string) : result Series :=
  match position name (df_columns df) with
  | Some j =>
      match nth_error (df_data df) j with
      | Some c => Ok {| s_index := df_index df; s_values := c |}
      | None => Raise (KeyError name)
      end
  | None => Raise (KeyError name)
  end.

Fixpoint replace_nth {A : Type} (j : nat) (x : A) (l : list A) : list A :=
  match l, j with
  | [], _ => []
  | _ :: l', O => x :: l'
  | a :: l', S j' => a :: replace_nth j' x l'
  end.

(** [df[name] = col], for a column that already carries [df]'s index:
    an existing column is overwritten, a new name is appended. *)
Definition setitem (df : DataFrame) (name : string) (c : column) : DataFrame :=
  match position name (df_columns df) with
  | Some j =>
      {| df_index := df_index df;
         df_columns := df_columns df;
         df_data := replace_nth j c (df_data df) |}
  | None =>
      {| df_index := df_index df;
         df_columns := df_columns df ++ [name];
         df_data := df_data df ++ [c] |}
  end.

(** [df.iloc[:, j]] *)
Definition iloc_col (df : DataFrame) (j : nat) : result Series :=
  match nth_error (df_data df) j with
  | Some c => Ok {| s_index := df_index df; s_values := c |}
  | None => Raise IndexError
  end.

Definition column_slice_from (start : Z) (c : column) : column :=
  match c with
  | FloatCol v => FloatCol (slice_from v start)
  | ObjectCol v => ObjectCol (slice_from v start)
  end.

Definition index_slice_from (start : Z) (i : Index) : Index :=
  match i with
  | RangeIndex n => RangeIndex (n - slice_start (Z.of_nat n) start)
  | DatetimeIndex l f => DatetimeIndex (slice_from l start) f
  | ObjectIndex l => ObjectIndex (slice_from l start)
  end.

(** [df.iloc[start:]]: the rows from a position on.  The labels of a
    sliced [RangeIndex] are not tracked, only their number. *)
Definition iloc_rows_from (df : DataFrame) (start : Z) : DataFrame :=
  {| df_index := index_slice_from start (df_index df);
     df_columns := df_columns df;
     df_data := map (column_slice_from start) (df_data df) |}.

(** *** [reindex(target, method="ffill")] *)

(** Position of the last element that satisfies a test. *)
Fixpoint find_last {A : Type} (P : A -> bool) (l : list A) : option nat :=
  match l with
  | [] => None
  | x :: l' =>
      match find_last P l' with
      | Some p => Some (S p)
      | None => if P x then Some O else None
      end
  end.

Fixpoint position_Z (t : Z) (l : list Z) : option nat :=
  match l with
  | [] => None
  | x :: l' => if Z.eqb t x then Some O else option_map S (position_Z t l')
  end.

Fixpoint is_unique (l : list Z) : bool :=
  match l with
  | [] => true
  | x :: l' => (negb (existsb (Z.eqb x) l') && is_unique l')%bool
  end.

Fixpoint is_monotonic_increasing (l : list Z) : bool :=
  match l with
  | x :: (y :: _) as l' => ((x <=? y) && is_monotonic_increasing l')%bool
  | _ => true
  end.

Fixpoint is_monotonic_decreasing (l : list Z) : bool :=
  match l with
  | x :: (y :: _) as l' => ((y <=? x) && is_monotonic_decreasing l')%bool
  | _ => true
  end.

(** [Index.get_indexer(target, method="pad")], as [reindex] calls it: for
    each target label the position of the source row to carry over, [None]
    where there is none.  Repeated source labels are refused first; an
    empty target then gives the empty indexer, whatever the order of the
    source; otherwise the source labels must be monotonic.  On increasing
    labels the row is the last one labelled at or before the target; on
    decreasing labels it is the exact match if any, else the last row
    labelled after the target. *)
Definition get_indexer_pad (src target : list Z) : result (list (option nat)) :=
  if negb (is_unique src) then Raise ValueError
  else if Nat.eqb (length target) 0 then Ok []
  else if is_monotonic_increasing src then
    Ok (map (fun t => find_last (fun x => x <=? t) src) target)
  else if is_monotonic_decreasing src then
    Ok (map (fun t =>
               match position_Z t src with
               | Some p => Some p
               | None => find_last (fun x => t <? x) src
               end) target)
  else Raise ValueError.

(** The labels of a [RangeIndex]. *)
Definition range_labels (n : nat) : list Z := map Z.of_nat (seq 0 n).

(** How the rows of a re-indexed table are picked: [None] when the target
    is identical to the index (the table is copied as it is), else the
    indexer.  Labels of different kinds do not compare.  Indexes labelled
    by strings are not re-indexed anywhere in the pipeline and are refused
    here. *)
Definition reindex_plan (src target : Index) : result (option (list (option nat))) :=
  if identical src target then Ok None
  else
    match src, target with
    | DatetimeIndex s _, DatetimeIndex t _ =>
        i <- get_indexer_pad s t ;; Ok (Some i)
    | RangeIndex n, RangeIndex m =>
        i <- get_indexer_pad (range_labels n) (range_labels m) ;; Ok (Some i)
    | _, _ => Raise TypeError
    end.

Definition take {A : Type} (fill : A) (indexer : list (option nat)) (v : list A) : list A :=
  map (fun i => match i with Some p => nth p v fill | None => fill end) indexer.

Definition take_column (indexer : list (option nat)) (c : column) : column :=
  match c with
  | FloatCol v => FloatCol (take nan indexer v)
  | ObjectCol v => ObjectCol (take RMissing indexer v)
  end.

(** [df.reindex(target, method="ffill")] *)
Definition reindex_ffill (df : DataFrame) (target : Index) : result DataFrame :=
  plan <- reindex_plan (df_index df) target ;;
  match plan with
  | None => Ok df
  | Some indexer =>
      Ok {| df_index := target;
            df_columns := df_columns df;
            df_data := map (take_column indexer) (df_data df) |}
  end.

(** [s.reindex(target, method="ffill")] *)
Definition series_reindex_ffill (s : Series) (target : Index) : result Series :=
  plan <- reindex_plan (s_index s) target ;;
  match plan with
  | None => Ok s
  | Some indexer =>
      Ok {| s_index := target; s_values := take_column indexer (s_values s) |}
  end.

(** *** [pd.read_csv(path, parse_dates=True, index_col=0)] *)

(** A delimited file as the reader sees it: the names of the value columns,
    and per row the parsed timestamp of the first column and the lexed value
    cells.  Rows come in file order. *)
Record csv_file : Type := mkCsv {
  csv_header : list string;
  csv_rows : list (timestamp * list raw_cell)
}.

Definition filesystem := string -> option csv_file.

(** Text for the reader. *)
Definition is_text (c : raw_cell) : bool :=
  match c with
  | RText _ | RFloatText _ _ => true
  | _ => false
  end.

(** dtype inference: a column without text is numeric, NA cells being NaN;
    any text makes the column an object column. *)
Definition infer_column (cells : list raw_cell) : column :=
  if existsb is_text cells then ObjectCol cells
  else FloatCol (map coerce_cell cells).

Definition is_bool_or_missing (c : raw_cell) : bool :=
  match c with
  | RBool _ | RMissing => true
  | _ => false
  end.

(** [True] and [False] in a column that also holds a number or text: the
    reader keeps the cell as the text it is, and [float()] does not read
    that text. *)
Definition bool_literal_as_text (c : raw_cell) : raw_cell :=
  match c with
  | RBool b => RText (if b then "True" else "False")
  | _ => c
  end.

(** The cells of the value column [j], as the reader takes them. *)
Definition csv_column (f : csv_file) (j : nat) : list raw_cell :=
  let cells := map (fun r => nth j (snd r) RMissing) (csv_rows f) in
  if forallb is_bool_or_missing cells then cells
  else map bool_literal_as_text cells.

Definition read_csv (fs : filesystem) (file_path : string) : result DataFrame :=
  match fs file_path with
  | None => Raise FileNotFoundError
  | Some f =>
      Ok {| df_index := DatetimeIndex (map fst (csv_rows f)) None;
            df_columns := csv_header f;
            df_data := map (fun j => infer_column (csv_column f j))
                           (seq 0 (length (csv_header f))) |}
  end.

(** *** Constructors and positional access used by the adapters *)

Fixpoint lookup {A : Type} (key : string) (d : list (string * A)) : option A :=
  match d with
  | [] => None
  | (k, v) :: d' => if String.eqb key k then Some v else lookup key d'
  end.

(** [pd.DataFrame(dict, columns=columns)] for a dict of equally long lists:
    no index given, so the default positional one over the lists' length. *)
Definition pd_DataFrame_dict (data : list (string * list float)) (columns : list string)
  : DataFrame :=
  let n := match data with
           | [] => O
           | (_, v) :: _ => length v
           end in
  {| df_index := RangeIndex n;
     df_columns := columns;
     df_data := map (fun c => FloatCol match lookup c data with
                                       | Some v => v
                                       | None => repeat nan n
                                       end) columns |}.

(** [pd.DataFrame(ndarray, index=index, columns=columns)]: the array is a
    list of rows; its shape must fit the index and the columns. *)
Definition pd_DataFrame_ndarray (values : list (list float)) (index : Index)
  (columns : list string) : result DataFrame :=
  if (Nat.eqb (length values) (index_len index)
      && forallb (fun row => Nat.eqb (length row) (length columns)) values)%bool
  then Ok {| df_index := index;
             df_columns := columns;
             df_data := map (fun j => FloatCol (map (fun row => nth j row nan) values))
                            (seq 0 (length columns)) |}
  else Raise ValueError.

(** [index[-1]] on the labels of a time index. *)
Definition index_last (labels : list timestamp) : result timestamp :=
  match rev labels with
  | t :: _ => Ok t
  | [] => Raise IndexError
  end.

(** [pd.date_range(start=start, periods=periods, freq=freq)]; without a
    frequency the range is daily.  A negative number of periods does not
    fit the unsigned arithmetic of the range and is refused. *)
Definition date_range (start : timestamp) (periods : Z) (freq : option Z) : result Index :=
  if periods <? 0 then Raise OverflowError
  else
    let step := match freq with Some f => f | None => Day end in
    Ok (DatetimeIndex (map (fun i => start + Z.of_nat i * step) (seq 0 (Z.to_nat periods)))
                      (Some step)).

(** [index[1:]] *)
Definition index_tail (i : Index) : Index :=
  match i with
  | RangeIndex n => RangeIndex (Nat.pred n)
  | DatetimeIndex l f => DatetimeIndex (tl l) f
  | ObjectIndex l => ObjectIndex (tl l)
  end.

Definition last_cell (c : column) : option raw_cell :=
  match c with
  | FloatCol v => match rev v with x :: _ => Some (RNum x) | [] => None end
  | ObjectCol v => match rev v with x :: _ => Some x | [] => None end
  end.

(** [df.iloc[-1]]: the last row, as a series labelled by the column names. *)
Definition iloc_last_row (df : DataFrame) : result Series :=
  cells <- mapM (fun c => match last_cell c with
                          | Some x => Ok x
                          | None => Raise IndexError
                          end) (df_data df) ;;
  if Nat.eqb (index_len (df_index df)) 0 then Raise IndexError
  else Ok {| s_index := ObjectIndex (df_columns df); s_values := infer_column cells |}.

(** ** [data_ingestion.py] *)

Module data_ingestion.

(** The reader gives every column its own name, so the loop over
    [df.columns] visits every column once. *)
Definition load_price_data (fs : filesystem) (file_path : string) : result DataFrame :=
  df <- read_csv fs file_path ;;
  Ok {| df_index := df_index df;
        df_columns := df_columns df;
        df_data := map to_numeric_coerce (df_data df) |}.

Definition load_weather_data (fs : filesystem) (file_path : string) : result DataFrame :=
  df <- read_csv fs file_path ;;
  temperature <- getitem df "temperature" ;;
  Ok (setitem df "temperature" (to_numeric_coerce (s_values temperature))).

Definition default_base_temperature : float := 18%float.

Definition HDD (base_temperature t : float) : float :=
  np_maximum 0%float (base_temperature - t)%float.

Definition CDD (base_temperature t : float) : float :=
  np_maximum 0%float (t - base_temperature)%float.

Definition compute_degree_days (temperature : Series) (base_temperature : float)
  : result DataFrame :=
  temp <- astype_float (s_values temperature) ;;
  let hdd := map (HDD base_temperature) temp in
  let cdd := map (CDD base_temperature) temp in
  Ok {| df_index := s_index temperature;
        df_columns := ["HDD"; "CDD"];
        df_data := [FloatCol hdd; FloatCol cdd] |}.

Definition load_sentiment_scores (fs : filesystem) (file_path : string) : result Series :=
  df <- read_csv fs file_path ;;
  first <- iloc_col df 0 ;;
  values <- astype_float (s_values first) ;;
  Ok {| s_index := s_index first; s_values := FloatCol values |}.

End data_ingestion.

(** ** The estimation libraries, as the adapters call them *)

(** [statsmodels.tsa.arima.model]: [ARIMA(series, order=, exog=)], then
    [.fit()], then [.resid] and [.get_forecast(steps=, exog=).predicted_mean]. *)
Record PredictionResults : Type := { predicted_mean : Series }.

Record ARIMAResults : Type := {
  resid : Series;
  get_forecast : Z -> option DataFrame -> result PredictionResults
}.

Record ARIMAModel : Type := { arima_fit : result ARIMAResults }.

Definition ARIMA_class : Type :=
  Series -> Z * Z * Z -> option DataFrame -> result ARIMAModel.

(** [arch]: [arch_model(resid, p=, q=)], then [.fit(disp="off")], then
    [.forecast(horizon=).variance]. *)
Record ARCHModelForecast : Type := { variance : DataFrame }.

Record ARCHModelResult : Type := { arch_forecast : Z -> result ARCHModelForecast }.

Record ARCHModel : Type := { arch_fit : result ARCHModelResult }.

Definition arch_model_function : Type := Series -> Z -> Z -> result ARCHModel.

(** [statsmodels.tsa.vector_ar.vecm]: [VECM(series, deterministic=,
    k_ar_diff=, coint_rank=)], then [.fit()], then [.predict(steps=)], an
    array of [steps] rows. *)
Record VECMResults : Type := { predict : Z -> result (list (list float)) }.

Record VECMModel : Type := { vecm_fit : result VECMResults }.

Definition VECM_class : Type :=
  DataFrame -> Z -> Z -> option Z -> result VECMModel.

(** [transformers.pipeline(task, model=)] gives a classifier; called on a
    text it gives a list of labelled scores. *)
Record classification : Type := { label : string; score : float }.

Definition classifier : Type := string -> result (list classification).

Definition pipeline_function : Type := string -> string -> result classifier.

(** ** [arimax.py] *)

Module arimax.

Definition default_order : Z * Z * Z := (1, 0, 1).

Definition fit_arimax (ARIMA : option ARIMA_class)
  (series : Series) (exog : option DataFrame) (order : Z * Z * Z) (forecast_steps : Z)
  : result Series :=
  match ARIMA with
  | None => Ok (pd_Series (py_repeat nan forecast_steps))
  | Some ARIMA =>
      model <- ARIMA series order exog ;;
      fitted <- arima_fit model ;;
      forecast <- get_forecast fitted forecast_steps
                    (option_map (fun e => iloc_rows_from e (- forecast_steps)) exog) ;;
      Ok (predicted_mean forecast)
  end.

End arimax.

(** ** [arimax_garch.py] *)

Module arimax_garch.

Record ArimaxGarchResult : Type := {
  mean_model : option ARIMAResults;
  vol_model : option ARCHModelResult;
  forecast_mean : Series;
  forecast_vol : Series
}.

Definition default_arima_order : Z * Z * Z := (1, 0, 1).
Definition default_garch_order : Z * Z := (1, 1).

Definition fit_arimax_garch (ARIMA : option ARIMA_class) (arch_model : option arch_model_function)
  (series : Series) (exog : option DataFrame) (arima_order : Z * Z * Z)
  (garch_order : Z * Z) (forecast_steps : Z) : result ArimaxGarchResult :=
  match ARIMA, arch_model with
  | Some ARIMA, Some arch_model =>
      model <- ARIMA series arima_order exog ;;
      fitted <- arima_fit model ;;
      garch <- arch_model (resid fitted) (fst garch_order) (snd garch_order) ;;
      garch_fit <- arch_fit garch ;;
      forecast <- get_forecast fitted forecast_steps
                    (option_map (fun e => iloc_rows_from e (- forecast_steps)) exog) ;;
      garch_forecast <- arch_forecast garch_fit forecast_steps ;;
      forecast_vol <- iloc_last_row (variance garch_forecast) ;;
      Ok {| mean_model := Some fitted;
            vol_model := Some garch_fit;
            forecast_mean := predicted_mean forecast;
            forecast_vol := forecast_vol |}
  | _, _ =>
      let forecast_mean := pd_Series (py_repeat nan forecast_steps) in
      let forecast_vol := pd_Series (py_repeat nan forecast_steps) in
      Ok {| mean_model := None;
            vol_model := None;
            forecast_mean := forecast_mean;
            forecast_vol := forecast_vol |}
  end.

End arimax_garch.

(** ** [vecm_garch.py] *)

Module vecm_garch.

Record VecmGarchResult : Type := {
  vecm_model : option VECMResults;
  forecast : DataFrame
}.

(** The index the fitted forecast is given:
    [pd.date_range(start=series.index[-1], periods=forecast_steps + 1,
    freq=series.index.freq)[1:]].  On an index that is not a time index
    [series.index[-1]], which is evaluated first, fails when there is no
    row, and [series.index.freq] does not exist. *)
Definition forecast_index (index : Index) (forecast_steps : Z) : result Index :=
  match index with
  | DatetimeIndex labels freq =>
      start <- index_last labels ;;
      range <- date_range start (forecast_steps + 1) freq ;;
      Ok (index_tail range)
  | _ =>
      if Nat.eqb (index_len index) 0 then Raise IndexError else Raise AttributeError
  end.

Definition fit_vecm_garch (VECM : option VECM_class)
  (series : DataFrame) (det_order k_ar_diff : Z) (cointegr_rank : option Z)
  (forecast_steps : Z) : result VecmGarchResult :=
  match VECM with
  | None =>
      let forecast :=
        pd_DataFrame_dict
          (map (fun col => (col, py_repeat nan forecast_steps)) (df_columns series))
          (df_columns series) in
      Ok {| vecm_model := None; forecast := forecast |}
  | Some VECM =>
      model <- VECM series det_order k_ar_diff cointegr_rank ;;
      vecm_res <- vecm_fit model ;;
      forecast <- predict vecm_res forecast_steps ;;
      forecast_index <- forecast_index (df_index series) forecast_steps ;;
      forecast_df <- pd_DataFrame_ndarray forecast forecast_index (df_columns series) ;;
      Ok {| vecm_model := Some vecm_res; forecast := forecast_df |}
  end.

End vecm_garch.

(** ** [sentiment_integration.py] *)

Module sentiment_integration.

(** The body of the scoring loop, on the first result for a text. *)
Definition signed_score (r : classification) : float :=
  let label := lower (label r) in
  let score := score r in
  if String.eqb label "positive" then score
  else if String.eqb label "negative" then (- score)%float
  else 0%float.

Definition score_text (sentiment_pipeline : classifier) (text : string) : result float :=
  results <- sentiment_pipeline text ;;
  match results with
  | r :: _ => Ok (signed_score r)
  | [] => Raise IndexError
  end.

Definition compute_finbert_sentiment (pipeline : option pipeline_function)
  (texts : list string) : result Series :=
  match pipeline with
  | None => Ok (pd_Series (py_repeat 0%float (Z.of_nat (length texts))))
  | Some pipeline =>
      sentiment_pipeline <- pipeline "sentiment-analysis" "ProsusAI/finbert" ;;
      scores <- mapM (score_text sentiment_pipeline) texts ;;
      Ok (pd_Series scores)
  end.

End sentiment_integration.

(** ** [forecasting_pipeline.py] *)

Module forecasting_pipeline.

(** What each module bound at import time. *)
Record imports : Type := {
  arimax_ARIMA : option ARIMA_class;
  arimax_garch_ARIMA : option ARIMA_class;
  arimax_garch_arch_model : option arch_model_function;
  vecm_garch_VECM : option VECM_class
}.

Record PipelineResult : Type := {
  arimax_forecast : option Series;
  arimax_garch_mean : option Series;
  arimax_garch_vol : option Series;
  vecm_forecast : option DataFrame
}.

Definition default_forecast_steps : Z := 24.

Definition run_pipeline (env : imports) (fs : filesystem)
  (price_path weather_path : string) (sentiment_path : option string)
  (forecast_steps : Z) : result PipelineResult :=
  price_df <- data_ingestion.load_price_data fs price_path ;;
  weather_df <- data_ingestion.load_weather_data fs weather_path ;;
  temperature <- getitem weather_df "temperature" ;;
  degree_days <- data_ingestion.compute_degree_days temperature
                   data_ingestion.default_base_temperature ;;
  exog <- reindex_ffill degree_days (df_index price_df) ;;
  exog <- match sentiment_path with
          | Some sentiment_path =>
              sentiment <- data_ingestion.load_sentiment_scores fs sentiment_path ;;
              aligned <- series_reindex_ffill sentiment (df_index price_df) ;;
              Ok (setitem exog "sentiment" (s_values aligned))
          | None => Ok exog
          end ;;
  target <- iloc_col price_df 0 ;;
  arimax_forecast <- arimax.fit_arimax (arimax_ARIMA env) target (Some exog)
                       arimax.default_order forecast_steps ;;
  result_garch <- arimax_garch.fit_arimax_garch
                    (arimax_garch_ARIMA env) (arimax_garch_arch_model env)
                    target (Some exog) arimax_garch.default_arima_order
                    arimax_garch.default_garch_order forecast_steps ;;
  vecm_res <- (if (1 <? length (df_columns price_df))%nat
               then r <- vecm_garch.fit_vecm_garch (vecm_garch_VECM env)
                           price_df 0 1 None forecast_steps ;;
                    Ok (Some r)
               else Ok None) ;;
  Ok {| arimax_forecast := Some arimax_forecast;
        arimax_garch_mean := Some (arimax_garch.forecast_mean result_garch);
        arimax_garch_vol := Some (arimax_garch.forecast_vol result_garch);
        vecm_forecast := option_map vecm_garch.forecast vecm_res |}.

End forecasting_pipeline.

(** ** Predicates used in the statements *)

(** The sign of a float, read off its comparison with zero: [Some Lt] for a
    negative, [Some Eq] for a zero, [Some Gt] for a positive one, [None]
    for NaN. *)
Definition compare_zero (x : spec_float) : option comparison :=
  SFcompare x (S754_zero false).

(** A float that is neither zero nor NaN, of the given sign. *)
Definition signed_nonzero (s : bool) (x : spec_float) : Prop :=
  match x with
  | S754_finite s' _ _ => s' = s
  | S754_infinity s' => s' = s
  | _ => False
  end.

(** The three ways a temperature can stand to the base.  At the base both
    parts are the differences themselves, which are zeros of either sign. *)
Inductive degree_day_case (b t : float) : Prop :=
| below_base :
    SFcompare (Prim2SF b) (Prim2SF t) = Some Gt ->
    data_ingestion.HDD b t = (b - t)%float ->
    compare_zero (Prim2SF (b - t)) = Some Gt ->
    data_ingestion.CDD b t = 0%float ->
    degree_day_case b t
| at_base :
    SFcompare (Prim2SF b) (Prim2SF t) = Some Eq ->
    data_ingestion.HDD b t = (b - t)%float ->
    compare_zero (Prim2SF (b - t)) = Some Eq ->
    data_ingestion.CDD b t = (t - b)%float ->
    compare_zero (Prim2SF (t - b)) = Some Eq ->
    degree_day_case b t
| above_base :
    SFcompare (Prim2SF b) (Prim2SF t) = Some Lt ->
    data_ingestion.HDD b t = 0%float ->
    data_ingestion.CDD b t = (t - b)%float ->
    compare_zero (Prim2SF (t - b)) = Some Gt ->
    degree_day_case b t.

(** The laws the degree-day transform is expected to obey at a base [b] and
    a temperature [t]: both parts are non-negative, above the base the
    cooling part is the heating part plus the excess, and off the base
    exactly one part is non-zero.  Comparisons are Python's on floats. *)
Definition degree_day_laws (b t : float) : Prop :=
  (0 <=? data_ingestion.HDD b t)%float = true /\
  (0 <=? data_ingestion.CDD b t)%float = true /\
  ((b <=? t)%float = true ->
   (data_ingestion.HDD b t + (t - b) =? data_ingestion.CDD b t)%float = true) /\
  ((t =? b)%float = false ->
   xorb (negb (data_ingestion.HDD b t =? 0)%float)
        (negb (data_ingestion.CDD b t =? 0)%float) = true).

(** A column of exactly [h] missing-value markers. *)
Definition all_missing (h : Z) (c : column) : Prop :=
  exists vs, c = FloatCol vs /\ Z.of_nat (length vs) = h /\ Forall (fun v => v = nan) vs.

(** A numeric column. *)
Definition is_numeric (c : column) : bool :=
  match c with
  | FloatCol _ => true
  | ObjectCol _ => false
  end.

Fixpoint strictly_increasing (l : list Z) : bool :=
  match l with
  | x :: (y :: _) as l' => ((x <? y) && strictly_increasing l')%bool
  | _ => true
  end.

Definition index_strictly_increasing (i : Index) : bool :=
  match i with
  | RangeIndex _ => true
  | DatetimeIndex l _ => strictly_increasing l
  | ObjectIndex _ => false
  end.

(** The invariant the data model asks of a time-indexed numeric table. *)
Definition data_model_invariant (df : DataFrame) : Prop :=
  index_strictly_increasing (df_index df) = true /\
  forallb is_numeric (df_data df) = true.

(** The forecast table carries the future timestamps that continue the
    input's index, as the fitted path builds them. *)
Definition indexed_by_future_timestamps (input : DataFrame) (h : Z) (out : DataFrame) : Prop :=
  vecm_garch.forecast_index (df_index input) h = Ok (df_index out).

(** [p] is the row to carry to the label [t]: the last source row labelled
    at or before [t], and no row when all source labels come after [t]. *)
Definition last_known (src : list Z) (t : Z) (p : option nat) : Prop :=
  match p with
  | Some p =>
      (exists l, nth_error src p = Some l /\ l <= t) /\
      (forall q l, (p < q)%nat -> nth_error src q = Some l -> t < l)
  | None => forall l, In l src -> t < l
  end.

(** Every value of [c'] is a value of [c] or the missing-value marker. *)
Definition no_new_values (c c' : column) : Prop :=
  match c, c' with
  | FloatCol v, FloatCol v' => forall a, In a v' -> In a v \/ a = nan
  | ObjectCol v, ObjectCol v' => forall a, In a v' -> In a v \/ a = RMissing
  | _, _ => False
  end.

(** ** Concrete inputs *)

(** One hour, in nanoseconds. *)
Definition Hour : Z := 3600000000000.

(** A backend that answers every text with one fixed classification. *)
Definition constant_pipeline (r : classification) : pipeline_function :=
  fun _ _ => Ok (fun _ => Ok [r]).

(** A price file whose rows are not in time order. *)
Definition unsorted_prices : csv_file :=
  {| csv_header := ["spot"];
     csv_rows := [(2 * Hour, [RNum 31]); (1 * Hour, [RNum 30])] |}.

(** A weather file with a malformed temperature and a text column. *)
Definition weather_with_station : csv_file :=
  {| csv_header := ["temperature"; "station"];
     csv_rows := [(1 * Hour, [RNum 17; RText "north"]);
                  (2 * Hour, [RText "n/a"; RText "north"])] |}.

(** A sentiment file with a second value column. *)
Definition sentiment_two_columns : csv_file :=
  {| csv_header := ["sentiment"; "source_count"];
     csv_rows := [(1 * Hour, [RNum 0.25; RNum 4]);
                  (2 * Hour, [RMissing; RNum 1])] |}.

(** A sentiment file with text in its first value column. *)
Definition sentiment_with_text : csv_file :=
  {| csv_header := ["sentiment"];
     csv_rows := [(1 * Hour, [RText "bullish"])] |}.

(** A price file with one series, in time order. *)
Definition hourly_prices : csv_file :=
  {| csv_header := ["spot"];
     csv_rows := [(1 * Hour, [RNum 30]); (2 * Hour, [RNum 31]); (3 * Hour, [RText "?"])] |}.

(** A price file with a spot and a futures series. *)
Definition spot_and_future_prices : csv_file :=
  {| csv_header := ["spot"; "future"];
     csv_rows := [(1 * Hour, [RNum 30; RNum 33]); (2 * Hour, [RNum 31; RNum 34])] |}.

(** Two price series over 200 hourly rows. *)
Definition cointegrated_pair : DataFrame :=
  {| df_index := DatetimeIndex (map (fun i => Z.of_nat i * Hour) (seq 0 200)) (Some Hour);
     df_columns := ["spot"; "future"];
     df_data := [FloatCol (repeat 30%float 200); FloatCol (repeat 33%float 200)] |}.

(** Degree days observed every other hour. *)
Definition sparse_degree_days : DataFrame :=
  {| df_index := DatetimeIndex [1 * Hour; 3 * Hour] None;
     df_columns := ["HDD"; "CDD"];
     df_data := [FloatCol [5; 0]%float; FloatCol [0; 2]%float] |}.

(** No estimation library installed. *)
Definition nothing_installed : forecasting_pipeline.imports :=
  {| forecasting_pipeline.arimax_ARIMA := None;
     forecasting_pipeline.arimax_garch_ARIMA := None;
     forecasting_pipeline.arimax_garch_arch_model := None;
     forecasting_pipeline.vecm_garch_VECM := None |}.

(** One price series over 100 hourly rows, and the temperature 18.0 at
    the same timestamps. *)
Definition hundred_prices : csv_file :=
  {| csv_header := ["spot"];
     csv_rows := map (fun i => (Z.of_nat i * Hour, [RNum 30])) (seq 0 100) |}.

Definition hundred_temperatures : csv_file :=
  {| csv_header := ["temperature"];
     csv_rows := map (fun i => (Z.of_nat i * Hour, [RNum 18])) (seq 0 100) |}.

Definition example_fs : filesystem :=
  fun path =>
    if String.eqb path "unsorted_prices.csv" then Some unsorted_prices
    else if String.eqb path "weather.csv" then Some weather_with_station
    else if String.eqb path "sentiment.csv" then Some sentiment_two_columns
    else if String.eqb path "sentiment_text.csv" then Some sentiment_with_text
    else if String.eqb path "prices.csv" then Some hourly_prices
    else if String.eqb path "pair.csv" then Some spot_and_future_prices
    else if String.eqb path "prices_100.csv" then Some hundred_prices
    else if String.eqb path "weather_100.csv" then Some hundred_temperatures
    else None.

(** ** Further predicates and inputs *)

(** A well-formed table: every name has a column, and every column has one
    value per index label. *)
Definition frame_wf (df : DataFrame) : Prop :=
  length (df_data df) = length (df_columns df) /\
  Forall (fun c => column_len c = index_len (df_index df)) (df_data df).

(** Row [j] of the column [c'] holds what row [k] of the column [c] holds. *)
Definition same_row (k j : nat) (c c' : column) : Prop :=
  match c, c' with
  | FloatCol v, FloatCol v' => nth j v' nan = nth k v nan
  | ObjectCol v, ObjectCol v' => nth j v' RMissing = nth k v RMissing
  | _, _ => False
  end.

(** The last [n] values of a column. *)
Definition column_tail (n : nat) (c : column) : column :=
  match c with
  | FloatCol v => FloatCol (skipn (length v - n) v)
  | ObjectCol v => ObjectCol (skipn (length v - n) v)
  end.

(** An estimator that forecasts a constant, whatever it is fitted on. *)
Definition constant_ARIMA (level : float) : ARIMA_class :=
  fun series _ _ =>
    Ok {| arima_fit :=
            Ok {| resid := series;
                  get_forecast := fun steps _ =>
                    Ok {| predicted_mean := pd_Series (py_repeat level steps) |} |} |}.

(** A volatility model whose variance table has one row and the columns
    [h.1], [h.2]. *)
Definition two_step_arch_model : arch_model_function :=
  fun _ _ _ =>
    Ok {| arch_fit :=
            Ok {| arch_forecast := fun _ =>
                    Ok {| variance :=
                            {| df_index := RangeIndex 1;
                               df_columns := ["h.1"; "h.2"];
                               df_data := [FloatCol [4%float]; FloatCol [5%float]] |} |} |} |}.

(** A cointegration model that forecasts zeros for [width] series. *)
Definition zero_VECM (width : nat) : VECM_class :=
  fun _ _ _ _ =>
    Ok {| vecm_fit :=
            Ok {| predict := fun steps =>
                    Ok (py_repeat (repeat 0%float width) steps) |} |}.

(** A classifier that knows no label for the text ["?"]. *)
Definition patchy_pipeline : pipeline_function :=
  fun _ _ =>
    Ok (fun text =>
          if String.eqb text "?" then Ok []
          else Ok [{| label := "Positive"; score := 0.5 |}]).

(** A weather file without a temperature column, and a file without any
    value column. *)
Definition humidity_only : csv_file :=
  {| csv_header := ["humidity"];
     csv_rows := [(1 * Hour, [RNum 40])] |}.

Definition timestamps_only : csv_file :=
  {| csv_header := [];
     csv_rows := [(1 * Hour, []); (2 * Hour, [])] |}.

(** Degree days whose rows are not in time order. *)
Definition shuffled_degree_days : DataFrame :=
  {| df_index := DatetimeIndex [2 * Hour; 1 * Hour; 3 * Hour] None;
     df_columns := ["HDD"; "CDD"];
     df_data := [FloatCol [5; 0; 1]%float; FloatCol [0; 2; 0]%float] |}.

(** A sentiment file whose first value column holds the text [1_000],
    which Python's [float()] reads as 1000.0, beside a column of notes. *)
Definition sentiment_with_underscore : csv_file :=
  {| csv_header := ["sentiment"; "note"];
     csv_rows := [(1 * Hour, [RNum 0.25; RText "calm"]);
                  (2 * Hour, [RFloatText "1_000" 1000; RText "spike"]);
                  (3 * Hour, [RMissing; RText "n/a"])] |}.

(** Sentiment files whose value column holds [True] and [False] only, and
    [True] beside a number. *)
Definition sentiment_flags : csv_file :=
  {| csv_header := ["sentiment"];
     csv_rows := [(1 * Hour, [RBool true]); (2 * Hour, [RBool false]);
                  (3 * Hour, [RMissing])] |}.

Definition sentiment_flag_and_number : csv_file :=
  {| csv_header := ["sentiment"];
     csv_rows := [(1 * Hour, [RBool true]); (2 * Hour, [RNum 2])] |}.


(** A cointegration backend that rejects every call, and an installation
    that has this backend only. *)
Definition rejecting_VECM : VECM_class := fun _ _ _ _ => Raise TypeError.

Definition only_rejecting_VECM : forecasting_pipeline.imports :=
  {| forecasting_pipeline.arimax_ARIMA := None;
     forecasting_pipeline.arimax_garch_ARIMA := None;
     forecasting_pipeline.arimax_garch_arch_model := None;
     forecasting_pipeline.vecm_garch_VECM := Some rejecting_VECM |}.

(** A weather file whose rows come newest first, and a price file over
    five hours. *)
Definition weather_newest_first : csv_file :=
  {| csv_header := ["temperature"];
     csv_rows := [(3 * Hour, [RNum 20]); (1 * Hour, [RNum 13])] |}.

Definition five_hourly_prices : csv_file :=
  {| csv_header := ["spot"];
     csv_rows := map (fun i => (Z.of_nat i * Hour, [RNum 30])) (seq 0 5) |}.

Definition more_files : filesystem :=
  fun path =>
    if String.eqb path "humidity.csv" then Some humidity_only
    else if String.eqb path "weather_newest_first.csv" then Some weather_newest_first
    else if String.eqb path "prices_5.csv" then Some five_hourly_prices
    else if String.eqb path "empty.csv" then Some timestamps_only
    else if String.eqb path "sentiment_underscore.csv" then Some sentiment_with_underscore
    else if String.eqb path "sentiment_flags.csv" then Some sentiment_flags
    else if String.eqb path "sentiment_flag_and_number.csv"
      then Some sentiment_flag_and_number
    else example_fs path.

(** * Floating-point facts

    The primitive operations are specified by [SpecFloat]; the lemmas below
    read the sign of a rounded difference off the comparison of its
    operands. *)

Lemma digits2_pos_bounds (m : positive) :
  2 ^ (Zpos (digits2_pos m) - 1) <= Zpos m < 2 ^ Zpos (digits2_pos m).
Proof.
  induction m as [p IH | p IH |]; cbn [digits2_pos].
  - rewrite Pos2Z.inj_succ.
    replace (Z.succ (Zpos (digits2_pos p)) - 1) with (Z.succ (Zpos (digits2_pos p) - 1)) by lia.
    rewrite !Z.pow_succ_r by lia. lia.
  - rewrite Pos2Z.inj_succ.
    replace (Z.succ (Zpos (digits2_pos p)) - 1) with (Z.succ (Zpos (digits2_pos p) - 1)) by lia.
    rewrite !Z.pow_succ_r by lia. lia.
  - cbn. lia.
Qed.

Lemma shr_1_m (mrs : shr_record) :
  0 <= shr_m mrs -> shr_m (shr_1 mrs) = shr_m mrs / 2.
Proof.
  destruct mrs as [m r s]; cbn [shr_m]; intros Hm.
  destruct m as [| p | p]; [reflexivity | | lia].
  destruct p as [p | p |]; cbn [shr_1 shr_m].
  - rewrite Pos2Z.inj_xI. apply Z.div_unique with (r := 1); lia.
  - rewrite Pos2Z.inj_xO. apply Z.div_unique with (r := 0); lia.
  - reflexivity.
Qed.

Lemma iter_pos_shr_1_m (p : positive) : forall mrs : shr_record,
  0 <= shr_m mrs -> shr_m (iter_pos shr_1 p mrs) = shr_m mrs / 2 ^ Zpos p.
Proof.
  induction p as [p IH | p IH |]; intros mrs Hm; cbn [iter_pos].
  - assert (H1 : 0 <= shr_m (shr_1 mrs)).
    { rewrite shr_1_m by assumption. apply Z.div_pos; lia. }
    assert (H2 : 0 <= shr_m (iter_pos shr_1 p (shr_1 mrs))).
    { rewrite IH by assumption. apply Z.div_pos; [assumption | apply Z.pow_pos_nonneg; lia]. }
    rewrite IH, IH, shr_1_m by assumption.
    rewrite !Z.div_div by (try apply Z.pow_pos_nonneg; lia).
    f_equal. rewrite (Pos2Z.inj_xI p).
    replace (2 * Zpos p + 1) with (1 + Zpos p + Zpos p) by lia.
    rewrite !Z.pow_add_r by lia. change (2 ^ 1) with 2. lia.
  - assert (H2 : 0 <= shr_m (iter_pos shr_1 p mrs)).
    { rewrite IH by assumption. apply Z.div_pos; [assumption | apply Z.pow_pos_nonneg; lia]. }
    rewrite IH, IH by assumption.
    rewrite !Z.div_div by (try apply Z.pow_pos_nonneg; lia).
    f_equal. rewrite (Pos2Z.inj_xO p).
    replace (2 * Zpos p) with (Zpos p + Zpos p) by lia.
    rewrite !Z.pow_add_r by lia. lia.
  - rewrite shr_1_m by assumption. reflexivity.
Qed.

Lemma fexp_unfold (z : Z) : fexp prec emax z = Z.max (z - 53) (-1074).
Proof. reflexivity. Qed.

Lemma shr_record_of_loc_m (m : Z) (l : location) : shr_m (shr_record_of_loc m l) = m.
Proof. destruct l as [| []]; reflexivity. Qed.

Lemma shr_fexp_pos (m e : Z) (l : location) :
  0 < m -> -1074 <= e ->
  0 < shr_m (fst (shr_fexp prec emax m e l)) /\ -1074 <= snd (shr_fexp prec emax m e l).
Proof.
  intros Hm He. unfold shr_fexp, shr.
  destruct m as [| mp | mp]; try lia. cbn [Zdigits2].
  rewrite fexp_unfold.
  pose proof (digits2_pos_bounds mp) as [Hlo Hhi].
  destruct (Z.max (Zpos (digits2_pos mp) + e - 53) (-1074) - e) as [| p | p] eqn:Hn;
    cbn [fst snd]; rewrite ?shr_record_of_loc_m; try lia.
  rewrite iter_pos_shr_1_m by (rewrite shr_record_of_loc_m; lia).
  rewrite shr_record_of_loc_m. split; [| lia].
  apply Z.div_str_pos. split; [apply Z.pow_pos_nonneg; lia |].
  apply Z.le_trans with (2 ^ (Zpos (digits2_pos mp) - 1)); [| assumption].
  apply Z.pow_le_mono_r; lia.
Qed.

Lemma round_nearest_even_pos (m : Z) (l : location) :
  0 < m -> 0 < round_nearest_even m l.
Proof.
  intros Hm. destruct l as [| []]; cbn [round_nearest_even]; try lia.
  destruct (Z.even m); lia.
Qed.

Lemma binary_round_aux_signed (s : bool) (m e : Z) (l : location) :
  0 < m -> -1074 <= e -> signed_nonzero s (binary_round_aux prec emax s m e l).
Proof.
  intros Hm He. unfold binary_round_aux.
  pose proof (shr_fexp_pos m e l Hm He) as [H1 H2].
  destruct (shr_fexp prec emax m e l) as [mrs' e'] eqn:E1. cbn [fst snd] in H1, H2.
  pose proof (round_nearest_even_pos (shr_m mrs') (loc_of_shr_record mrs') H1) as H3.
  pose proof (shr_fexp_pos _ e' loc_Exact H3 H2) as [H4 H5].
  destruct (shr_fexp prec emax (round_nearest_even (shr_m mrs') (loc_of_shr_record mrs')) e' loc_Exact)
    as [mrs'' e''] eqn:E2.
  cbn [fst snd] in H4, H5.
  destruct (shr_m mrs'') as [| q | q]; try lia.
  destruct (e'' <=? emax - prec); reflexivity.
Qed.

Lemma shl_align_exp (m : positive) (e e' : Z) :
  -1074 <= e -> -1074 <= e' -> -1074 <= snd (shl_align m e e').
Proof.
  intros He He'. unfold shl_align. destruct (e' - e); cbn [snd]; lia.
Qed.

Lemma binary_round_signed (s : bool) (m : positive) (e : Z) :
  -1074 <= e -> signed_nonzero s (binary_round prec emax s m e).
Proof.
  intros He. unfold binary_round.
  pose proof (shl_align_exp m e (fexp prec emax (Zpos (digits2_pos m) + e)) He) as H.
  destruct (shl_align m e (fexp prec emax (Zpos (digits2_pos m) + e))) as [mz ez] eqn:E.
  cbn [snd] in H.
  apply binary_round_aux_signed; [lia |]. apply H. rewrite fexp_unfold. lia.
Qed.

Lemma bounded_inv (m : positive) (e : Z) :
  bounded prec emax m e = true ->
  -1074 <= e /\ Zpos (digits2_pos m) <= 53 /\ (e = -1074 \/ Zpos (digits2_pos m) = 53).
Proof.
  unfold bounded, canonical_mantissa. rewrite fexp_unfold.
  intros H. apply andb_prop in H as [H _]. apply Z.eqb_eq in H. lia.
Qed.

Lemma shl_align_value (m : positive) (e e' : Z) :
  e' <= e -> Zpos (fst (shl_align m e e')) = Zpos m * 2 ^ (e - e').
Proof.
  intros H. unfold shl_align.
  destruct (e' - e) as [| d | d] eqn:E; cbn [fst]; try lia.
  - replace (e - e') with 0 by lia. cbn. lia.
  - replace (e - e') with (Zpos d) by lia.
    change (Pos.iter xO m d) with (shift_pos d m).
    rewrite shift_pos_correct, Z.pow_pos_fold. lia.
Qed.

Lemma magnitude_compare (m1 : positive) (e1 : Z) (m2 : positive) (e2 : Z) :
  bounded prec emax m1 e1 = true -> bounded prec emax m2 e2 = true ->
  match e1 ?= e2 with
  | Lt => Lt
  | Gt => Gt
  | Eq => Pos.compare_cont Eq m1 m2
  end
  = (Zpos (fst (shl_align m1 e1 (Z.min e1 e2))) ?= Zpos (fst (shl_align m2 e2 (Z.min e1 e2)))).
Proof.
  intros B1 B2.
  apply bounded_inv in B1 as (L1 & D1 & C1), B2 as (L2 & D2 & C2).
  pose proof (digits2_pos_bounds m1) as [Lo1 Hi1].
  pose proof (digits2_pos_bounds m2) as [Lo2 Hi2].
  rewrite !shl_align_value by lia.
  assert (P53 : forall d, d <= 53 -> 2 ^ d <= 2 ^ 53) by (intros; apply Z.pow_le_mono_r; lia).
  destruct (Z.compare_spec e1 e2) as [E | E | E].
  - subst e2. rewrite Z.min_id, Z.sub_diag, !Z.mul_1_r. reflexivity.
  - symmetry. apply Z.compare_lt_iff.
    rewrite Z.min_l, Z.sub_diag, Z.mul_1_r by lia.
    assert (H2 : 2 ^ 1 <= 2 ^ (e2 - e1)) by (apply Z.pow_le_mono_r; lia).
    assert (D : Zpos (digits2_pos m2) = 53) by lia. rewrite D in Lo2.
    specialize (P53 _ D1). change (2 ^ 1) with 2 in H2. change (2 ^ (53 - 1)) with 4503599627370496 in Lo2.
    change (2 ^ 53) with 9007199254740992 in P53. nia.
  - symmetry. apply Z.compare_gt_iff.
    rewrite Z.min_r, Z.sub_diag, Z.mul_1_r by lia.
    assert (H2 : 2 ^ 1 <= 2 ^ (e1 - e2)) by (apply Z.pow_le_mono_r; lia).
    assert (D : Zpos (digits2_pos m1) = 53) by lia. rewrite D in Lo1.
    specialize (P53 _ D2). change (2 ^ 1) with 2 in H2. change (2 ^ (53 - 1)) with 4503599627370496 in Lo1.
    change (2 ^ 53) with 9007199254740992 in P53. nia.
Qed.

Lemma signed_nonzero_compare (s : bool) (x : spec_float) :
  signed_nonzero s x -> compare_zero x = Some (if s then Lt else Gt).
Proof. destruct x as [| s' | | s' m e]; cbn; intros H; try contradiction; subst; reflexivity. Qed.

Lemma binary_normalize_compare (d e : Z) :
  -1074 <= e ->
  compare_zero (binary_normalize prec emax d e false) = Some (d ?= 0).
Proof.
  intros He. destruct d as [| p | p]; cbn [binary_normalize].
  - reflexivity.
  - apply (signed_nonzero_compare false), binary_round_signed, He.
  - apply (signed_nonzero_compare true), binary_round_signed, He.
Qed.

Lemma SFsub_finite_compare (s1 : bool) (m1 : positive) (e1 : Z) (s2 : bool) (m2 : positive) (e2 : Z) :
  bounded prec emax m1 e1 = true -> bounded prec emax m2 e2 = true ->
  compare_zero (SF64sub (S754_finite s1 m1 e1) (S754_finite s2 m2 e2))
  = SFcompare (S754_finite s1 m1 e1) (S754_finite s2 m2 e2).
Proof.
  intros B1 B2. unfold SF64sub. cbn [SFsub SFcompare].
  rewrite binary_normalize_compare
    by (apply bounded_inv in B1 as (L1 & _), B2 as (L2 & _); lia).
  rewrite <- Z.compare_sub. f_equal.
  pose proof (magnitude_compare m1 e1 m2 e2 B1 B2) as M.
  pose proof (Pos2Z.is_pos (fst (shl_align m1 e1 (Z.min e1 e2)))) as P1.
  pose proof (Pos2Z.is_pos (fst (shl_align m2 e2 (Z.min e1 e2)))) as P2.
  destruct s1, s2; cbn [cond_Zopp].
  - rewrite Z.compare_opp, Z.compare_antisym, <- M.
    destruct (e1 ?= e2); reflexivity.
  - apply Z.compare_lt_iff. lia.
  - apply Z.compare_gt_iff. lia.
  - symmetry. exact M.
Qed.

Lemma SFcompare_antisym (x y : spec_float) :
  SFcompare y x = option_map CompOpp (SFcompare x y).
Proof.
  destruct x as [sx | sx | | sx mx ex], y as [sy | sy | | sy my ey];
    try destruct sx; try destruct sy; try reflexivity; cbn [SFcompare option_map].
  - rewrite (Z.compare_antisym ex ey), (ZC4 my mx).
    destruct (ex ?= ey); reflexivity.
  - rewrite (Z.compare_antisym ex ey), (ZC4 my mx).
    destruct (ex ?= ey); reflexivity.
Qed.

Lemma SFcompare_refl (x : spec_float) :
  x <> S754_nan -> SFcompare x x = Some Eq.
Proof.
  destruct x as [s | s | | s m e]; intros H; try destruct s; try reflexivity;
    try contradiction; cbn [SFcompare];
    rewrite Z.compare_refl, Pos.compare_cont_refl; reflexivity.
Qed.

Lemma SFcompare_nan_iff (x y : spec_float) :
  SFcompare x y = None <-> x = S754_nan \/ y = S754_nan.
Proof.
  destruct x as [sx | sx | | sx mx ex], y as [sy | sy | | sy my ey];
    try destruct sx; try destruct sy; cbn [SFcompare];
    split; intros H; try discriminate; try reflexivity; auto;
    destruct H; discriminate.
Qed.

Lemma SFsub_compare (x y : spec_float) :
  valid_binary x = true -> valid_binary y = true ->
  SF64sub x y <> S754_nan ->
  compare_zero (SF64sub x y) = SFcompare x y.
Proof.
  intros Vx Vy.
  destruct x as [sx | sx | | sx mx ex], y as [sy | sy | | sy my ey];
    try (intros _; apply SFsub_finite_compare; assumption);
    try destruct sx; try destruct sy; cbn; intros H; try reflexivity; contradiction.
Qed.

Lemma SFsub_nan_sym (x y : spec_float) :
  valid_binary x = true -> valid_binary y = true ->
  SF64sub x y <> S754_nan -> SF64sub y x <> S754_nan.
Proof.
  intros Vx Vy.
  destruct x as [sx | sx | | sx mx ex], y as [sy | sy | | sy my ey];
    try (intros _ E;
         pose proof (SFsub_finite_compare sy my ey sx mx ex Vy Vx) as C;
         rewrite E in C; discriminate);
    try destruct sx; try destruct sy; cbn; intros H; try discriminate; contradiction.
Qed.

Lemma SFsub_nan_iff (x y : spec_float) :
  valid_binary x = true -> valid_binary y = true ->
  SF64sub x y = S754_nan <->
  x = S754_nan \/ y = S754_nan \/
  exists s, x = S754_infinity s /\ y = S754_infinity s.
Proof.
  intros Vx Vy.
  destruct x as [sx | sx | | sx mx ex], y as [sy | sy | | sy my ey];
    try (split;
         [ intros E; pose proof (SFsub_finite_compare sx mx ex sy my ey Vx Vy) as C;
           rewrite E in C; discriminate
         | intros [E | [E | (s & E & _)]]; discriminate ]);
    try destruct sx; try destruct sy; cbn;
    (split;
     [ intros E; try discriminate; auto; right; right; eexists; split; reflexivity
     | intros [E | [E | (s & E1 & E2)]]; try discriminate; try reflexivity;
       destruct s; discriminate ]).
Qed.

Lemma Prim2SF_zero : Prim2SF 0%float = S754_zero false.
Proof. reflexivity. Qed.

Lemma is_nan_false_iff (x : float) :
  PrimFloat.is_nan x = false <-> Prim2SF x <> S754_nan.
Proof.
  unfold PrimFloat.is_nan. rewrite eqb_spec. unfold SFeqb. split.
  - intros H E. rewrite E in H. discriminate.
  - intros H. rewrite SFcompare_refl by assumption. reflexivity.
Qed.

Lemma is_nan_true_iff (x : float) :
  PrimFloat.is_nan x = true <-> x = nan.
Proof.
  split.
  - intros H. apply Prim2SF_inj. change (Prim2SF nan) with S754_nan.
    destruct (Prim2SF x) eqn:E; try reflexivity;
      (assert (N : PrimFloat.is_nan x = false)
         by (apply is_nan_false_iff; rewrite E; discriminate);
       rewrite N in H; discriminate).
  - intros ->. reflexivity.
Qed.

(** The difference of two floats is NaN only for a NaN operand or for two
    infinities of the same sign. *)
Lemma difference_is_nan_iff (b t : float) :
  PrimFloat.is_nan (b - t) = true <->
  b = nan \/ t = nan \/
  (b = infinity /\ t = infinity) \/ (b = neg_infinity /\ t = neg_infinity).
Proof.
  rewrite is_nan_true_iff. split.
  - intros E. apply (f_equal Prim2SF) in E. rewrite sub_spec in E.
    change (Prim2SF nan) with S754_nan in E.
    apply SFsub_nan_iff in E; try apply Prim2SF_valid.
    destruct E as [E | [E | (s & Eb & Et)]].
    + left. apply Prim2SF_inj. exact E.
    + right; left. apply Prim2SF_inj. exact E.
    + right; right. destruct s.
      * right. split; apply Prim2SF_inj; assumption.
      * left. split; apply Prim2SF_inj; assumption.
  - intros H. apply Prim2SF_inj. rewrite sub_spec.
    change (Prim2SF nan) with S754_nan.
    apply SFsub_nan_iff; try apply Prim2SF_valid.
    destruct H as [-> | [-> | [[-> ->] | [-> ->]]]].
    + left. reflexivity.
    + right; left. reflexivity.
    + right; right. exists false. split; reflexivity.
    + right; right. exists true. split; reflexivity.
Qed.

(** Comparisons with zero, read off [compare_zero]. *)
Lemma leb_zero_r (x : float) :
  (x <=? 0)%float = match compare_zero (Prim2SF x) with
                    | Some Lt | Some Eq => true
                    | _ => false
                    end.
Proof. rewrite leb_spec, Prim2SF_zero. reflexivity. Qed.

Lemma leb_zero_l (x : float) :
  (0 <=? x)%float = match compare_zero (Prim2SF x) with
                    | Some Gt | Some Eq => true
                    | _ => false
                    end.
Proof.
  rewrite leb_spec, Prim2SF_zero. unfold SFleb, compare_zero.
  rewrite (SFcompare_antisym (Prim2SF x) (S754_zero false)).
  destruct (SFcompare (Prim2SF x) (S754_zero false)) as [[]|]; reflexivity.
Qed.

Lemma eqb_zero_r (x : float) :
  (x =? 0)%float = match compare_zero (Prim2SF x) with
                   | Some Eq => true
                   | _ => false
                   end.
Proof. rewrite eqb_spec, Prim2SF_zero. reflexivity. Qed.

Lemma ltb_zero_r (x : float) :
  (x <? 0)%float = match compare_zero (Prim2SF x) with
                   | Some Lt => true
                   | _ => false
                   end.
Proof. rewrite ltb_spec, Prim2SF_zero. reflexivity. Qed.

(** [np.maximum(0, x)] by the sign of [x]. *)
Lemma np_maximum_zero (x : float) :
  np_maximum 0 x = match compare_zero (Prim2SF x) with
                   | Some Lt => 0%float
                   | _ => x
                   end.
Proof.
  unfold np_maximum. rewrite ltb_zero_r.
  change (PrimFloat.is_nan 0) with false. cbn [orb].
  destruct (compare_zero (Prim2SF x)) as [[]|]; reflexivity.
Qed.

Lemma degree_day_cases (b t : float) :
  PrimFloat.is_nan (b - t) = false -> degree_day_case b t.
Proof.
  intros H. apply is_nan_false_iff in H. rewrite sub_spec in H.
  pose proof (SFsub_compare _ _ (Prim2SF_valid b) (Prim2SF_valid t) H) as C1.
  pose proof (SFsub_nan_sym _ _ (Prim2SF_valid b) (Prim2SF_valid t) H) as H'.
  pose proof (SFsub_compare _ _ (Prim2SF_valid t) (Prim2SF_valid b) H') as C2.
  rewrite (SFcompare_antisym (Prim2SF b) (Prim2SF t)) in C2.
  rewrite <- sub_spec in C1, C2.
  destruct (SFcompare (Prim2SF b) (Prim2SF t)) as [[]|] eqn:E; cbn [option_map CompOpp] in C2.
  - apply at_base; unfold data_ingestion.HDD, data_ingestion.CDD; rewrite ?np_maximum_zero, ?C1, ?C2; auto.
  - apply above_base; unfold data_ingestion.HDD, data_ingestion.CDD; rewrite ?np_maximum_zero, ?C1, ?C2; auto.
  - apply below_base; unfold data_ingestion.HDD, data_ingestion.CDD; rewrite ?np_maximum_zero, ?C1, ?C2; auto.
  - exfalso. rewrite <- sub_spec in H.
    apply SFcompare_nan_iff in C1 as [C1 | C1]; [contradiction | discriminate].
Qed.

Lemma add_zero_positive (d : float) :
  compare_zero (Prim2SF d) = Some Gt -> (0 + d)%float = d.
Proof.
  intros C. apply Prim2SF_inj. rewrite add_spec, Prim2SF_zero.
  destruct (Prim2SF d) as [s | s | | s m e]; try destruct s; try discriminate; reflexivity.
Qed.

Lemma add_zeros (d d' : float) :
  compare_zero (Prim2SF d) = Some Eq -> compare_zero (Prim2SF d') = Some Eq ->
  (d + d' =? d')%float = true.
Proof.
  intros C C'. rewrite eqb_spec, add_spec.
  destruct (Prim2SF d) as [s | s | | s m e]; try destruct s; try discriminate;
    destruct (Prim2SF d') as [s' | s' | | s' m' e']; try destruct s'; try discriminate;
    reflexivity.
Qed.

Lemma eqb_refl_positive (d : float) :
  compare_zero (Prim2SF d) = Some Gt -> (d =? d)%float = true.
Proof.
  intros C. rewrite eqb_spec. unfold SFeqb. rewrite SFcompare_refl; [reflexivity |].
  intros E. rewrite E in C. discriminate.
Qed.

Lemma ltb_zero_l (x : float) :
  (0 <? x)%float = match compare_zero (Prim2SF x) with
                   | Some Gt => true
                   | _ => false
                   end.
Proof.
  rewrite ltb_spec, Prim2SF_zero. unfold SFltb, compare_zero.
  rewrite (SFcompare_antisym (Prim2SF x) (S754_zero false)).
  destruct (SFcompare (Prim2SF x) (S754_zero false)) as [[]|]; reflexivity.
Qed.

(** [np.maximum(0, x)] is the larger of 0 and [x], and NaN for NaN; a
    zero [x], of either sign, is returned as it is. *)
Lemma np_maximum_zero_max (x : float) :
  np_maximum 0 x =
  if PrimFloat.is_nan x then nan
  else if (0 <? x)%float then x
  else if (x <? 0)%float then 0%float
  else x.
Proof.
  rewrite np_maximum_zero, ltb_zero_l, ltb_zero_r.
  destruct (PrimFloat.is_nan x) eqn:N.
  - apply is_nan_true_iff in N. subst x. reflexivity.
  - destruct (compare_zero (Prim2SF x)) as [[]|] eqn:C; reflexivity.
Qed.

(** A missing temperature gives a missing heating and cooling part. *)
Lemma degree_days_of_missing (b : float) :
  data_ingestion.HDD b nan = nan /\ data_ingestion.CDD b nan = nan.
Proof.
  assert (E1 : (b - nan)%float = nan)
    by (apply is_nan_true_iff, difference_is_nan_iff; right; left; reflexivity).
  assert (E2 : (nan - b)%float = nan)
    by (apply is_nan_true_iff, difference_is_nan_iff; left; reflexivity).
  unfold data_ingestion.HDD, data_ingestion.CDD. rewrite E1, E2. split; reflexivity.
Qed.

Lemma degree_day_laws_hold (b t : float) :
  PrimFloat.is_nan (b - t) = false -> degree_day_laws b t.
Proof.
  intros H. unfold degree_day_laws.
  destruct (degree_day_cases b t H) as [E Hh Ch Hc | E Hh Ch Hc Cc | E Hh Hc Cc];
    rewrite Hh, Hc; (split; [| split; [| split]]); try reflexivity.
  - rewrite leb_zero_l, Ch. reflexivity.
  - intros L. rewrite leb_spec in L. unfold SFleb in L. rewrite E in L. discriminate.
  - intros _. rewrite (eqb_zero_r (b - t)), Ch. reflexivity.
  - rewrite leb_zero_l, Ch. reflexivity.
  - rewrite leb_zero_l, Cc. reflexivity.
  - intros _. apply add_zeros; assumption.
  - intros N. rewrite eqb_spec in N. unfold SFeqb in N.
    rewrite (SFcompare_antisym (Prim2SF b) (Prim2SF t)), E in N. discriminate.
  - rewrite leb_zero_l, Cc. reflexivity.
  - intros _. rewrite add_zero_positive by assumption. apply eqb_refl_positive, Cc.
  - intros _. rewrite (eqb_zero_r (t - b)), Cc. reflexivity.
Qed.

(** * The degree-day transform *)

Example degree_days_above_base :
  data_ingestion.HDD 18 20.5 = 0%float /\ data_ingestion.CDD 18 20.5 = 2.5%float.
Proof. split; reflexivity. Qed.

Example degree_days_below_base :
  data_ingestion.HDD 18 (-3) = 21%float /\ data_ingestion.CDD 18 (-3) = 0%float.
Proof. split; reflexivity. Qed.

(** At a base of 0.0 the temperature -0.0 gives a cooling part of -0.0. *)
Example degree_days_at_negative_zero :
  data_ingestion.HDD 0 neg_zero = 0%float /\ data_ingestion.CDD 0 neg_zero = neg_zero.
Proof. split; reflexivity. Qed.

(** C2, as stated, fails on a missing temperature: the loader turns a
    malformed temperature cell into NaN, the transform carries NaN into both
    columns, and NaN is neither [>= 0] nor equal to 0.  It also fails when
    base and temperature are the same infinity. *)
Lemma degree_days_missing_temperature :
  data_ingestion.compute_degree_days (pd_Series [nan]) 18
  = Ok {| df_index := RangeIndex 1;
          df_columns := ["HDD"; "CDD"];
          df_data := [FloatCol [nan]; FloatCol [nan]] |} /\
  (0 <=? data_ingestion.HDD 18 nan)%float = false /\
  (0 <=? data_ingestion.CDD 18 nan)%float = false /\
  ~ degree_day_laws 18 nan /\
  ~ degree_day_laws infinity infinity.
Proof.
  repeat split; try reflexivity.
  - intros (H & _). discriminate H.
  - intros (H & _). discriminate H.
Qed.

(** C2, amended: for every series of temperatures and every base [b],
    [compute_degree_days] yields, element by element, [HDD = maximum(0, b - t)]
    and [CDD = maximum(0, t - b)], on the index of the input, [b] defaulting
    to 18; [maximum(0, x)] is the larger of 0 and [x] and is NaN when [x] is
    (it is [x] for a positive [x], [0.0] for a negative one, and a zero [x]
    is returned with its sign).
    For every [t] and [b] whose difference is a number (neither is NaN and
    they are not the same infinity), [HDD >= 0], [CDD >= 0],
    [HDD + (t - b) == CDD] when [t >= b], and exactly one of [HDD], [CDD]
    is non-zero when [t != b].  For a missing temperature both parts are
    missing. *)
Theorem degree_days_laws_for_numbers
  (temperature : Series) (temp : list float) (b t : float) :
  astype_float (s_values temperature) = Ok temp ->
  PrimFloat.is_nan (b - t) = false ->
  data_ingestion.compute_degree_days temperature b
  = Ok {| df_index := s_index temperature;
          df_columns := ["HDD"; "CDD"];
          df_data := [FloatCol (map (fun t => np_maximum 0 (b - t)) temp);
                      FloatCol (map (fun t => np_maximum 0 (t - b)) temp)] |} /\
  data_ingestion.default_base_temperature = 18%float /\
  (forall x, np_maximum 0 x
             = if PrimFloat.is_nan x then nan
               else if (0 <? x)%float then x
               else if (x <? 0)%float then 0%float
               else x) /\
  degree_day_laws b t /\
  (b <> nan /\ t <> nan /\
   ~ (b = infinity /\ t = infinity) /\ ~ (b = neg_infinity /\ t = neg_infinity)) /\
  (forall b', data_ingestion.HDD b' nan = nan /\ data_ingestion.CDD b' nan = nan).
Proof.
  intros Htemp Hnum. split; [| split; [| split; [| split; [| split]]]].
  - unfold data_ingestion.compute_degree_days. rewrite Htemp. reflexivity.
  - reflexivity.
  - exact np_maximum_zero_max.
  - apply degree_day_laws_hold, Hnum.
  - assert (N : ~ PrimFloat.is_nan (b - t) = true) by (rewrite Hnum; discriminate).
    rewrite difference_is_nan_iff in N. tauto.
  - exact degree_days_of_missing.
Qed.

Lemma degree_days_laws_for_numbers_witness :
  astype_float (s_values (pd_Series [20.5%float])) = Ok [20.5%float] /\
  PrimFloat.is_nan (18 - 20.5) = false /\
  degree_day_laws 18 20.5.
Proof.
  split; [reflexivity |]. split; [reflexivity |].
  exact (proj1 (proj2 (proj2 (proj2
           (degree_days_laws_for_numbers (pd_Series [20.5%float]) [20.5%float] 18 20.5
              eq_refl eq_refl))))).
Defined.

(** * The result monad *)

Lemma bind_Ok {A B : Type} (m : result A) (k : A -> result B) (b : B) :
  bind m k = Ok b -> exists a, m = Ok a /\ k a = Ok b.
Proof. destruct m as [a | e]; cbn; [intros H; now exists a | discriminate]. Qed.

(** * Degraded mode of the adapters *)

Lemma py_repeat_length {A : Type} (x : A) (h : Z) :
  0 <= h -> Z.of_nat (length (py_repeat x h)) = h.
Proof. intros H. unfold py_repeat. rewrite repeat_length. lia. Qed.

Lemma py_repeat_Forall {A : Type} (x : A) (h : Z) :
  Forall (fun v => v = x) (py_repeat x h).
Proof.
  unfold py_repeat. apply Forall_forall. intros y Hy.
  apply repeat_spec in Hy. exact Hy.
Qed.

Lemma py_repeat_negative {A : Type} (x : A) (h : Z) :
  h <= 0 -> py_repeat x h = [].
Proof. intros H. unfold py_repeat. replace (Z.to_nat h) with O by lia. reflexivity. Qed.

Lemma all_missing_placeholder (h : Z) :
  0 <= h -> all_missing h (FloatCol (py_repeat nan h)).
Proof.
  intros H. exists (py_repeat nan h).
  split; [reflexivity |]. split; [apply py_repeat_length, H | apply py_repeat_Forall].
Qed.

(** A negative horizon gives an empty placeholder. *)
Lemma negative_horizon_gives_empty_placeholder
  (series : Series) (exog : option DataFrame) (order : Z * Z * Z) (h : Z) :
  h <= 0 -> arimax.fit_arimax None series exog order h = Ok (pd_Series []).
Proof.
  intros H. unfold arimax.fit_arimax. now rewrite py_repeat_negative.
Qed.

Lemma lookup_map_const {A : Type} (v : A) (c : string) (cols : list string) :
  In c cols -> lookup c (map (fun col => (col, v)) cols) = Some v.
Proof.
  induction cols as [| k cols IH]; intros Hin; [destruct Hin |].
  cbn [map lookup]. destruct (String.eqb c k) eqn:E; [reflexivity |].
  destruct Hin as [Hk | Hin]; [| apply IH, Hin].
  subst k. rewrite String.eqb_refl in E. discriminate.
Qed.

(** The table the multivariate adapter builds without its backend. *)
Lemma placeholder_table_data (cols : list string) (h : Z) :
  df_data (pd_DataFrame_dict (map (fun col => (col, py_repeat nan h)) cols) cols)
  = map (fun _ => FloatCol (py_repeat nan h)) cols.
Proof.
  cbn [pd_DataFrame_dict df_data]. apply map_ext_in. intros c Hc.
  rewrite lookup_map_const by exact Hc. reflexivity.
Qed.

Lemma placeholder_table_index (cols : list string) (h : Z) :
  cols <> [] ->
  df_index (pd_DataFrame_dict (map (fun col => (col, py_repeat nan h)) cols) cols)
  = RangeIndex (Z.to_nat h).
Proof.
  destruct cols as [| c cols]; [congruence |]. intros _.
  cbn [pd_DataFrame_dict df_index map]. unfold py_repeat. now rewrite repeat_length.
Qed.

(** C1: without the estimation backend, and for a horizon [h >= 0],
    [fit_arimax] returns a sequence of exactly [h] NaN; [fit_arimax_garch]
    returns a bundle without model handles whose mean and volatility
    forecasts are each exactly [h] NaN; [fit_vecm_garch] returns a table
    with the columns of the input, each column exactly [h] NaN, and [h] rows
    as soon as the input has a column. *)
Theorem degraded_adapters_return_placeholders
  (series : Series) (table : DataFrame) (exog : option DataFrame)
  (ARIMA : option ARIMA_class) (arch_model : option arch_model_function)
  (order : Z * Z * Z) (garch_order : Z * Z)
  (det_order k_ar_diff : Z) (cointegr_rank : option Z) (h : Z) :
  0 <= h ->
  ARIMA = None \/ arch_model = None ->
  (exists s,
      arimax.fit_arimax None series exog order h = Ok s /\
      all_missing h (s_values s)) /\
  (exists r,
      arimax_garch.fit_arimax_garch ARIMA arch_model series exog order garch_order h = Ok r /\
      arimax_garch.mean_model r = None /\
      arimax_garch.vol_model r = None /\
      all_missing h (s_values (arimax_garch.forecast_mean r)) /\
      all_missing h (s_values (arimax_garch.forecast_vol r))) /\
  (exists r,
      vecm_garch.fit_vecm_garch None table det_order k_ar_diff cointegr_rank h = Ok r /\
      vecm_garch.vecm_model r = None /\
      df_columns (vecm_garch.forecast r) = df_columns table /\
      length (df_data (vecm_garch.forecast r)) = length (df_columns table) /\
      Forall (all_missing h) (df_data (vecm_garch.forecast r)) /\
      (df_columns table <> [] ->
       Z.of_nat (index_len (df_index (vecm_garch.forecast r))) = h)).
Proof.
  intros Hh Hnone. split; [| split].
  - eexists. split; [reflexivity |]. apply all_missing_placeholder, Hh.
  - eexists. split.
    + unfold arimax_garch.fit_arimax_garch.
      destruct Hnone as [-> | ->]; [| destruct ARIMA]; reflexivity.
    + cbn. repeat split; try apply all_missing_placeholder, Hh.
  - eexists. split; [reflexivity |]. cbn [vecm_garch.vecm_model vecm_garch.forecast].
    rewrite placeholder_table_data. repeat split.
    + apply length_map.
    + apply Forall_forall. intros c Hc. apply in_map_iff in Hc as (x & <- & _).
      apply all_missing_placeholder, Hh.
    + intros Hcols. rewrite placeholder_table_index by exact Hcols. cbn. lia.
Qed.

Lemma degraded_adapters_return_placeholders_witness :
  (0 <= 24) /\
  (exists s,
      arimax.fit_arimax None (pd_Series [1; 2; 3]%float) None (1, 0, 1) 24 = Ok s /\
      all_missing 24 (s_values s)).
Proof.
  split; [lia |].
  apply (degraded_adapters_return_placeholders
           (pd_Series [1; 2; 3]%float)
           {| df_index := DatetimeIndex [0; 1] None;
              df_columns := ["spot"; "future"];
              df_data := [FloatCol [1; 2]%float; FloatCol [3; 4]%float] |}
           None None None (1, 0, 1) (1, 1) 0 1 None 24);
    [lia | left; reflexivity].
Defined.


(** C9: in degraded mode the placeholder forecasts of [fit_arimax] and
    [fit_arimax_garch] carry the default positional index [0 .. h-1],
    whatever the index of the input series, and never a time index. *)
Theorem degraded_forecasts_have_positional_index
  (series : Series) (exog : option DataFrame)
  (ARIMA : option ARIMA_class) (arch_model : option arch_model_function)
  (order : Z * Z * Z) (garch_order : Z * Z) (h : Z) :
  ARIMA = None \/ arch_model = None ->
  (exists s,
      arimax.fit_arimax None series exog order h = Ok s /\
      s_index s = RangeIndex (Z.to_nat h) /\
      (forall labels freq, s_index s <> DatetimeIndex labels freq)) /\
  (exists r,
      arimax_garch.fit_arimax_garch ARIMA arch_model series exog order garch_order h = Ok r /\
      s_index (arimax_garch.forecast_mean r) = RangeIndex (Z.to_nat h) /\
      s_index (arimax_garch.forecast_vol r) = RangeIndex (Z.to_nat h) /\
      (forall labels freq,
          s_index (arimax_garch.forecast_mean r) <> DatetimeIndex labels freq /\
          s_index (arimax_garch.forecast_vol r) <> DatetimeIndex labels freq)).
Proof.
  intros Hnone.
  assert (Hidx : s_index (pd_Series (py_repeat nan h)) = RangeIndex (Z.to_nat h)).
  { cbn. unfold py_repeat. now rewrite repeat_length. }
  split.
  - eexists. split; [reflexivity |]. split; [exact Hidx |].
    intros labels freq. rewrite Hidx. discriminate.
  - eexists. split.
    + unfold arimax_garch.fit_arimax_garch.
      destruct Hnone as [-> | ->]; [| destruct ARIMA]; reflexivity.
    + cbn [arimax_garch.forecast_mean arimax_garch.forecast_vol].
      repeat split; try exact Hidx; rewrite Hidx; discriminate.
Qed.

Lemma degraded_forecasts_have_positional_index_witness :
  exists s,
    arimax.fit_arimax None
      {| s_index := DatetimeIndex [0; 3600; 7200] (Some 3600);
         s_values := FloatCol [30; 31; 29]%float |} None (1, 0, 1) 24 = Ok s /\
    s_index s = RangeIndex 24 /\
    (forall labels freq, s_index s <> DatetimeIndex labels freq).
Proof.
  apply (degraded_forecasts_have_positional_index
           {| s_index := DatetimeIndex [0; 3600; 7200] (Some 3600);
              s_values := FloatCol [30; 31; 29]%float |}
           None None None (1, 0, 1) (1, 1) 24).
  left; reflexivity.
Defined.

(** * Sentiment scoring *)

Lemma mapM_ok_map {A B : Type} (f : A -> result B) (g : A -> B) (l : list A) :
  (forall a, In a l -> f a = Ok (g a)) -> mapM f l = Ok (map g l).
Proof.
  induction l as [| a l IH]; intros H; [reflexivity |].
  cbn [mapM map]. rewrite (H a (or_introl eq_refl)). cbn [bind].
  rewrite IH by (intros x Hx; apply H; right; exact Hx). reflexivity.
Qed.

Example signed_score_positive :
  sentiment_integration.signed_score {| label := "positive"; score := 0.9 |} = 0.9%float.
Proof. reflexivity. Qed.

Example signed_score_negative :
  sentiment_integration.signed_score {| label := "negative"; score := 0.7 |} = (-0.7)%float.
Proof. reflexivity. Qed.

Example signed_score_capitalised :
  sentiment_integration.signed_score {| label := "Negative"; score := 0.7 |} = (-0.7)%float.
Proof. reflexivity. Qed.

(** C4: with the backend present, every text is scored by the first
    classification the backend gives for it: label "positive" with confidence
    [c] gives [+c], "negative" gives [-c], "neutral" gives exactly 0.0
    whatever the confidence; ("positive", 0.9) gives 0.9 and
    ("negative", 0.7) gives -0.7. *)
Theorem sentiment_label_mapping
  (pipeline : pipeline_function) (sentiment_pipeline : classifier)
  (first : string -> classification) (texts : list string) :
  pipeline "sentiment-analysis" "ProsusAI/finbert" = Ok sentiment_pipeline ->
  (forall text, In text texts ->
                exists rest, sentiment_pipeline text = Ok (first text :: rest)) ->
  sentiment_integration.compute_finbert_sentiment (Some pipeline) texts
  = Ok (pd_Series (map (fun text => sentiment_integration.signed_score (first text)) texts)) /\
  (forall c, sentiment_integration.signed_score {| label := "positive"; score := c |} = c) /\
  (forall c, sentiment_integration.signed_score {| label := "negative"; score := c |}
             = (- c)%float) /\
  (forall c, sentiment_integration.signed_score {| label := "neutral"; score := c |}
             = 0%float) /\
  sentiment_integration.signed_score {| label := "positive"; score := 0.9 |} = 0.9%float /\
  sentiment_integration.signed_score {| label := "negative"; score := 0.7 |} = (-0.7)%float.
Proof.
  intros Hload Hfirst. split; [| repeat split].
  unfold sentiment_integration.compute_finbert_sentiment. rewrite Hload. cbn [bind].
  rewrite (mapM_ok_map _ (fun text => sentiment_integration.signed_score (first text))).
  - reflexivity.
  - intros text Hin. unfold sentiment_integration.score_text.
    destruct (Hfirst text Hin) as [rest ->]. reflexivity.
Qed.

Lemma sentiment_label_mapping_witness :
  sentiment_integration.compute_finbert_sentiment
    (Some (constant_pipeline {| label := "negative"; score := 0.7 |}))
    ["Gas prices slump"; "Outage at the interconnector"]
  = Ok (pd_Series [-0.7; -0.7]%float).
Proof.
  apply (sentiment_label_mapping
           (constant_pipeline {| label := "negative"; score := 0.7 |})
           (fun _ => Ok [{| label := "negative"; score := 0.7 |}])
           (fun _ => {| label := "negative"; score := 0.7 |})
           ["Gas prices slump"; "Outage at the interconnector"]).
  - reflexivity.
  - intros text _. exists []. reflexivity.
Defined.

Lemma signed_score_cases (r : classification) :
  (lower (label r) = "positive" -> sentiment_integration.signed_score r = score r) /\
  (lower (label r) = "negative" -> sentiment_integration.signed_score r = (- score r)%float) /\
  (lower (label r) <> "positive" -> lower (label r) <> "negative" ->
   sentiment_integration.signed_score r = 0%float).
Proof.
  unfold sentiment_integration.signed_score. repeat split.
  - intros ->. reflexivity.
  - intros ->. reflexivity.
  - intros Hp Hn.
    apply String.eqb_neq in Hp, Hn. rewrite Hp, Hn. reflexivity.
Qed.

(** * The data loaders *)

Lemma to_numeric_coerce_infer (cells : list raw_cell) :
  to_numeric_coerce (infer_column cells) = FloatCol (map coerce_cell cells).
Proof. unfold infer_column. destruct (existsb is_text cells); reflexivity. Qed.

Lemma mapM_cell_to_float (cells : list raw_cell) :
  existsb is_text cells = false ->
  mapM cell_to_float cells = Ok (map coerce_cell cells).
Proof.
  intros H. apply mapM_ok_map. intros c Hc.
  destruct c as [v | | s | s v | b] eqn:Ec; try reflexivity;
    (assert (E : existsb is_text cells = true)
       by (apply existsb_exists; exists c; subst c; split; [exact Hc | reflexivity]);
     rewrite E in H; discriminate).
Qed.

(** Whatever dtype the reader gave the column, [astype(float)] converts
    it cell by cell. *)
Lemma astype_float_cells (cells : list raw_cell) :
  astype_float (infer_column cells) = mapM cell_to_float cells.
Proof.
  unfold infer_column. destruct (existsb is_text cells) eqn:H; [reflexivity |].
  cbn [astype_float]. symmetry. apply mapM_cell_to_float, H.
Qed.

(** The only exception a cell conversion raises is [ValueError]. *)
Lemma mapM_cell_to_float_text (cells : list raw_cell) (s : string) :
  In (RText s) cells -> mapM cell_to_float cells = Raise ValueError.
Proof.
  induction cells as [| c cells IH]; intros H; [destruct H |].
  cbn [mapM]. destruct H as [-> | H]; [reflexivity |].
  rewrite (IH H). destruct c; reflexivity.
Qed.

Lemma position_lt (name : string) (names : list string) (j : nat) :
  position name names = Some j -> (j < length names)%nat.
Proof.
  revert j. induction names as [| n names IH]; intros j H; [discriminate |].
  cbn [position] in H. destruct (String.eqb name n).
  - injection H as <-. cbn. lia.
  - destruct (position name names) as [k |]; [| discriminate].
    injection H as <-. specialize (IH k eq_refl). cbn. lia.
Qed.

Lemma position_in (name : string) (names : list string) :
  In name names -> exists j, position name names = Some j.
Proof.
  induction names as [| n names IH]; intros H; [destruct H |].
  cbn [position]. destruct (String.eqb name n) eqn:E; [now exists O |].
  destruct H as [H | H].
  - subst n. rewrite String.eqb_refl in E. discriminate.
  - destruct (IH H) as [j ->]. now exists (S j).
Qed.

Lemma nth_error_replace_nth {A : Type} (j : nat) (x : A) (l : list A) :
  (j < length l)%nat -> nth_error (replace_nth j x l) j = Some x.
Proof.
  revert j. induction l as [| a l IH]; intros j H; [cbn in H; lia |].
  destruct j as [| j]; [reflexivity |]. cbn. apply IH. cbn in H. lia.
Qed.

Lemma nth_error_map_seq {A : Type} (f : nat -> A) (n j : nat) :
  (j < n)%nat -> nth_error (map f (seq 0 n)) j = Some (f j).
Proof.
  intros H. rewrite nth_error_map, nth_error_seq.
  destruct (Nat.ltb_spec j n); [reflexivity | lia].
Qed.

Lemma forallb_numeric_map {A : Type} (f : A -> list float) (l : list A) :
  forallb is_numeric (map (fun a => FloatCol (f a)) l) = true.
Proof. induction l as [| a l IH]; [reflexivity | exact IH]. Qed.

Lemma index_strictly_increasing_datetime (l : list Z) (f : option Z) :
  index_strictly_increasing (DatetimeIndex l f) = strictly_increasing l.
Proof. reflexivity. Qed.

(** C6, as stated, fails: the loaders keep the rows in file order, so a
    file that is not in time order gives an index that is not increasing;
    and the weather loader coerces the temperature column only, so a text
    column stays an object column. *)
Lemma loaders_keep_file_order :
  exists prices weather,
    data_ingestion.load_price_data example_fs "unsorted_prices.csv" = Ok prices /\
    df_index prices = DatetimeIndex [2 * Hour; 1 * Hour] None /\
    ~ data_model_invariant prices /\
    data_ingestion.load_weather_data example_fs "weather.csv" = Ok weather /\
    df_data weather = [FloatCol [17%float; nan];
                       ObjectCol [RText "north"; RText "north"]] /\
    ~ data_model_invariant weather.
Proof.
  eexists. eexists.
  split; [reflexivity |]. split; [reflexivity |]. split.
  - intros [H _]. discriminate H.
  - split; [reflexivity |]. split; [reflexivity |].
    intros [_ H]. discriminate H.
Qed.

(** C6, amended: on every readable file, [load_price_data] returns a table
    that keeps the file's timestamps in file order (so its index is strictly
    increasing exactly when the file's rows are), with every value column
    numeric, each cell being its number, and NaN where the cell is empty or
    malformed, without raising; [load_weather_data] does the same for the
    [temperature] column. *)
Theorem loaders_coerce_malformed_cells
  (fs : filesystem) (file_path : string) (f : csv_file) :
  fs file_path = Some f ->
  (exists df,
      data_ingestion.load_price_data fs file_path = Ok df /\
      df_index df = DatetimeIndex (map fst (csv_rows f)) None /\
      df_columns df = csv_header f /\
      df_data df = map (fun j => FloatCol (map coerce_cell (csv_column f j)))
                       (seq 0 (length (csv_header f))) /\
      forallb is_numeric (df_data df) = true /\
      index_strictly_increasing (df_index df) = strictly_increasing (map fst (csv_rows f))) /\
  (forall j, position "temperature" (csv_header f) = Some j ->
     exists df,
       data_ingestion.load_weather_data fs file_path = Ok df /\
       df_index df = DatetimeIndex (map fst (csv_rows f)) None /\
       df_columns df = csv_header f /\
       df_data df = replace_nth j (FloatCol (map coerce_cell (csv_column f j)))
                      (map (fun k => infer_column (csv_column f k))
                           (seq 0 (length (csv_header f)))) /\
       getitem df "temperature"
       = Ok {| s_index := DatetimeIndex (map fst (csv_rows f)) None;
               s_values := FloatCol (map coerce_cell (csv_column f j)) |}) /\
  (forall v s, coerce_cell (RNum v) = v /\ coerce_cell RMissing = nan /\
               coerce_cell (RText s) = nan).
Proof.
  intros Hfile. split; [| split].
  - eexists. unfold data_ingestion.load_price_data, read_csv. rewrite Hfile.
    cbn [bind df_index df_columns df_data].
    split; [reflexivity |]. split; [reflexivity |]. split; [reflexivity |].
    rewrite map_map.
    assert (E : map (fun j => to_numeric_coerce (infer_column (csv_column f j)))
                    (seq 0 (length (csv_header f)))
                = map (fun j => FloatCol (map coerce_cell (csv_column f j)))
                      (seq 0 (length (csv_header f))))
      by (apply map_ext; intros j; apply to_numeric_coerce_infer).
    rewrite E. split; [reflexivity |]. split; [apply forallb_numeric_map | reflexivity].
  - intros j Hj. pose proof (position_lt _ _ _ Hj) as Hlt.
    unfold data_ingestion.load_weather_data, read_csv. rewrite Hfile. cbn [bind].
    unfold getitem at 1. cbn [df_columns df_data df_index]. rewrite Hj.
    rewrite nth_error_map_seq by exact Hlt. cbn [bind s_values].
    rewrite to_numeric_coerce_infer.
    eexists. split; [reflexivity |].
    unfold setitem. cbn [df_columns df_data df_index]. rewrite Hj.
    cbn [df_columns df_data df_index].
    split; [reflexivity |]. split; [reflexivity |]. split; [reflexivity |].
    unfold getitem. cbn [df_columns df_data df_index]. rewrite Hj.
    rewrite nth_error_replace_nth by (rewrite length_map, length_seq; exact Hlt).
    reflexivity.
  - intros v s. repeat split.
Qed.

Lemma loaders_coerce_malformed_cells_witness :
  example_fs "weather.csv" = Some weather_with_station /\
  exists df,
    data_ingestion.load_weather_data example_fs "weather.csv" = Ok df /\
    df_index df = DatetimeIndex [1 * Hour; 2 * Hour] None /\
    df_columns df = ["temperature"; "station"] /\
    df_data df = [FloatCol [17%float; nan]; ObjectCol [RText "north"; RText "north"]] /\
    getitem df "temperature"
    = Ok {| s_index := DatetimeIndex [1 * Hour; 2 * Hour] None;
            s_values := FloatCol [17%float; nan] |}.
Proof.
  split; [reflexivity |].
  exact (proj1 (proj2 (loaders_coerce_malformed_cells
                         example_fs "weather.csv" weather_with_station eq_refl))
               O eq_refl).
Defined.

(** C10, as stated, fails on a table whose first value column holds text:
    [astype(float)] raises instead of returning. *)
Lemma sentiment_loader_raises_on_text :
  example_fs "sentiment_text.csv" = Some sentiment_with_text /\
  length (csv_header sentiment_with_text) = 1%nat /\
  data_ingestion.load_sentiment_scores example_fs "sentiment_text.csv" = Raise ValueError /\
  ~ exists s, data_ingestion.load_sentiment_scores example_fs "sentiment_text.csv" = Ok s.
Proof.
  repeat split. intros [s H]. discriminate H.
Qed.

(** C10, amended: [load_sentiment_scores] never checks the number of value
    columns.  For every readable table with one or more value columns the
    outcome depends on the first value column only.  When [astype(float)]
    converts each of its cells (a number; an empty cell, as NaN; [True] and
    [False] of a boolean column, as 1.0 and 0.0; text that Python's
    [float()] reads, such as [1_000]), the loader returns these floats on
    the file's timestamps, whatever the other columns hold; in particular
    it does so for a column of numbers and empty cells.  A cell that
    [float()] cannot read, such as [bullish], makes it raise [ValueError]. *)
Theorem sentiment_loader_takes_first_column
  (fs : filesystem) (file_path : string) (f : csv_file) (first : string) (others : list string) :
  fs file_path = Some f ->
  csv_header f = first :: others ->
  (forall values,
     mapM cell_to_float (csv_column f 0) = Ok values ->
     data_ingestion.load_sentiment_scores fs file_path
     = Ok {| s_index := DatetimeIndex (map fst (csv_rows f)) None;
             s_values := FloatCol values |}) /\
  (existsb is_text (csv_column f 0) = false ->
   data_ingestion.load_sentiment_scores fs file_path
   = Ok {| s_index := DatetimeIndex (map fst (csv_rows f)) None;
           s_values := FloatCol (map coerce_cell (csv_column f 0)) |}) /\
  (forall s,
     In (RText s) (csv_column f 0) ->
     data_ingestion.load_sentiment_scores fs file_path = Raise ValueError) /\
  (forall v s b,
     cell_to_float (RNum v) = Ok v /\
     cell_to_float RMissing = Ok nan /\
     cell_to_float (RBool b) = Ok (if b then 1 else 0)%float /\
     cell_to_float (RFloatText s v) = Ok v /\
     cell_to_float (RText s) = Raise ValueError).
Proof.
  intros Hfile Hheader.
  unfold data_ingestion.load_sentiment_scores, read_csv. rewrite Hfile, Hheader.
  cbn [bind length seq map iloc_col df_data nth_error s_values s_index df_index].
  rewrite astype_float_cells.
  split; [| split; [| split]].
  - intros values ->. reflexivity.
  - intros Hcol. rewrite mapM_cell_to_float by exact Hcol. reflexivity.
  - intros s Hs. rewrite (mapM_cell_to_float_text _ s Hs). reflexivity.
  - intros v s b. repeat split.
Qed.

Lemma sentiment_loader_takes_first_column_witness :
  more_files "sentiment_underscore.csv" = Some sentiment_with_underscore /\
  csv_header sentiment_with_underscore = ["sentiment"; "note"] /\
  data_ingestion.load_sentiment_scores more_files "sentiment_underscore.csv"
  = Ok {| s_index := DatetimeIndex [1 * Hour; 2 * Hour; 3 * Hour] None;
          s_values := FloatCol [0.25%float; 1000%float; nan] |}.
Proof.
  split; [reflexivity |]. split; [reflexivity |].
  exact (proj1 (sentiment_loader_takes_first_column
                  more_files "sentiment_underscore.csv" sentiment_with_underscore
                  "sentiment" ["note"] eq_refl eq_refl)
               [0.25%float; 1000%float; nan] eq_refl).
Defined.

(** A first value column next to a second numeric one, and a column of
    [True] and [False]: both are returned as floats.  [True] beside a number
    is text, and raises. *)
Example sentiment_loader_on_numbers_and_flags :
  data_ingestion.load_sentiment_scores example_fs "sentiment.csv"
  = Ok {| s_index := DatetimeIndex [1 * Hour; 2 * Hour] None;
          s_values := FloatCol [0.25%float; nan] |} /\
  data_ingestion.load_sentiment_scores more_files "sentiment_flags.csv"
  = Ok {| s_index := DatetimeIndex [1 * Hour; 2 * Hour; 3 * Hour] None;
          s_values := FloatCol [1%float; 0%float; nan] |} /\
  data_ingestion.load_sentiment_scores more_files "sentiment_flag_and_number.csv"
  = Raise ValueError.
Proof. repeat split. Qed.

(** * The multivariate adapter without its backend *)

Lemma degraded_vecm_forecast (series : DataFrame) (det_order k_ar_diff : Z)
  (cointegr_rank : option Z) (h : Z) :
  0 <= h -> df_columns series <> [] ->
  exists r,
    vecm_garch.fit_vecm_garch None series det_order k_ar_diff cointegr_rank h = Ok r /\
    vecm_garch.vecm_model r = None /\
    df_index (vecm_garch.forecast r) = RangeIndex (Z.to_nat h) /\
    df_columns (vecm_garch.forecast r) = df_columns series /\
    df_data (vecm_garch.forecast r)
    = map (fun _ => FloatCol (py_repeat nan h)) (df_columns series).
Proof.
  intros Hh Hcols. eexists. split; [reflexivity |].
  cbn [vecm_garch.vecm_model vecm_garch.forecast].
  rewrite placeholder_table_data, placeholder_table_index by exact Hcols.
  repeat split.
Qed.

(** With the backend present, the forecast carries the future timestamps. *)
Lemma fitted_vecm_forecast_is_time_indexed (VECM : VECM_class) (series : DataFrame)
  (det_order k_ar_diff : Z) (cointegr_rank : option Z) (h : Z)
  (r : vecm_garch.VecmGarchResult) :
  vecm_garch.fit_vecm_garch (Some VECM) series det_order k_ar_diff cointegr_rank h = Ok r ->
  indexed_by_future_timestamps series h (vecm_garch.forecast r) /\
  df_columns (vecm_garch.forecast r) = df_columns series.
Proof.
  unfold vecm_garch.fit_vecm_garch, indexed_by_future_timestamps. intros H.
  apply bind_Ok in H as (model & _ & H).
  apply bind_Ok in H as (vecm_res & _ & H).
  apply bind_Ok in H as (values & _ & H).
  apply bind_Ok in H as (index & Hindex & H).
  apply bind_Ok in H as (forecast_df & Hdf & H).
  injection H as <-. cbn [vecm_garch.forecast]. rewrite Hindex.
  unfold pd_DataFrame_ndarray in Hdf.
  destruct (_ && _)%bool; [| discriminate]. injection Hdf as <-. split; reflexivity.
Qed.

(** C3, as stated, fails: on two price series over 200 hourly rows the
    degraded forecast has 24 rows and 2 columns, but it is labelled by the
    positions 0..23 and not by the 24 timestamps that continue the input. *)
Lemma degraded_vecm_forecast_is_not_time_indexed :
  shape cointegrated_pair = (200%nat, 2%nat) /\
  exists r,
    vecm_garch.fit_vecm_garch None cointegrated_pair 0 1 None 24 = Ok r /\
    shape (vecm_garch.forecast r) = (24%nat, 2%nat) /\
    df_index (vecm_garch.forecast r) = RangeIndex 24 /\
    vecm_garch.forecast_index (df_index cointegrated_pair) 24
    = Ok (DatetimeIndex (map (fun i => Z.of_nat (200 + i) * Hour) (seq 0 24)) (Some Hour)) /\
    ~ indexed_by_future_timestamps cointegrated_pair 24 (vecm_garch.forecast r).
Proof.
  split; [reflexivity |]. eexists.
  split; [reflexivity |]. split; [reflexivity |]. split; [reflexivity |].
  split; [vm_compute; reflexivity |].
  unfold indexed_by_future_timestamps. intros H. vm_compute in H. discriminate H.
Qed.

(** C3, amended: for an input price table with two columns over 200 rows
    and the estimation backend absent, the multivariate adapter's forecast
    table has 24 rows and the 2 columns of the input, every value NaN, and
    is indexed by the default positions 0..23, not by timestamps; with the
    backend present the forecast is indexed by the 24 future timestamps that
    continue the input's index. *)
Theorem degraded_vecm_forecast_scenario (series : DataFrame)
  (det_order k_ar_diff : Z) (cointegr_rank : option Z) :
  shape series = (200%nat, 2%nat) ->
  exists r,
    vecm_garch.fit_vecm_garch None series det_order k_ar_diff cointegr_rank 24 = Ok r /\
    shape (vecm_garch.forecast r) = (24%nat, 2%nat) /\
    df_columns (vecm_garch.forecast r) = df_columns series /\
    length (df_data (vecm_garch.forecast r)) = 2%nat /\
    Forall (all_missing 24) (df_data (vecm_garch.forecast r)) /\
    df_index (vecm_garch.forecast r) = RangeIndex 24 /\
    (forall labels freq, df_index (vecm_garch.forecast r) <> DatetimeIndex labels freq) /\
    (forall VECM r',
        vecm_garch.fit_vecm_garch (Some VECM) series det_order k_ar_diff cointegr_rank 24
        = Ok r' ->
        indexed_by_future_timestamps series 24 (vecm_garch.forecast r')).
Proof.
  intros Hshape. unfold shape in Hshape. injection Hshape as Hrows Hcols.
  assert (Hne : df_columns series <> []) by (intros E; rewrite E in Hcols; discriminate).
  destruct (degraded_vecm_forecast series det_order k_ar_diff cointegr_rank 24
              ltac:(lia) Hne) as (r & Hr & _ & Hidx & Hnames & Hdata).
  exists r. split; [exact Hr |].
  change (Z.to_nat 24) with 24%nat in Hidx.
  unfold shape. rewrite Hidx, Hnames, Hdata, Hcols, length_map, Hcols.
  repeat split; try discriminate.
  - apply Forall_forall. intros c Hc. apply in_map_iff in Hc as (x & <- & _).
    apply all_missing_placeholder. lia.
  - intros VECM r' Hr'.
    exact (proj1 (fitted_vecm_forecast_is_time_indexed _ _ _ _ _ _ _ Hr')).
Qed.

Lemma degraded_vecm_forecast_scenario_witness :
  shape cointegrated_pair = (200%nat, 2%nat) /\
  exists r,
    vecm_garch.fit_vecm_garch None cointegrated_pair 0 1 None 24 = Ok r /\
    shape (vecm_garch.forecast r) = (24%nat, 2%nat) /\
    df_columns (vecm_garch.forecast r) = ["spot"; "future"] /\
    length (df_data (vecm_garch.forecast r)) = 2%nat /\
    Forall (all_missing 24) (df_data (vecm_garch.forecast r)) /\
    df_index (vecm_garch.forecast r) = RangeIndex 24.
Proof.
  split; [reflexivity |].
  destruct (degraded_vecm_forecast_scenario cointegrated_pair 0 1 None eq_refl)
    as (r & Hr & Hshape & Hnames & Hlen & Hnan & Hidx & _).
  exists r. repeat (split; [assumption |]). exact Hidx.
Defined.

(** * Forward-fill alignment *)

Section Reindex.

Lemma list_Z_eqb_refl (l : list Z) : list_Z_eqb l l = true.
Proof. unfold list_Z_eqb. destruct (list_eq_dec Z.eq_dec l l); congruence. Qed.

Lemma option_Z_eqb_refl (f : option Z) : option_Z_eqb f f = true.
Proof. destruct f; [apply Z.eqb_refl | reflexivity]. Qed.

Lemma identical_refl (i : Index) : identical i i = true.
Proof.
  destruct i as [n | l f | l]; cbn.
  - apply Nat.eqb_refl.
  - now rewrite list_Z_eqb_refl, option_Z_eqb_refl.
  - unfold list_string_eqb. destruct (list_eq_dec string_dec l l); congruence.
Qed.

Lemma identical_eq (a b : Index) : identical a b = true -> a = b.
Proof.
  destruct a as [n | l f | l], b as [m | l' f' | l']; cbn; try discriminate.
  - intros H. apply Nat.eqb_eq in H. now subst.
  - intros H. apply andb_prop in H as [Hl Hf].
    unfold list_Z_eqb in Hl. destruct (list_eq_dec Z.eq_dec l l'); [subst | discriminate].
    destruct f as [x |], f' as [y |]; cbn in Hf; try discriminate; [| reflexivity].
    apply Z.eqb_eq in Hf. now subst.
  - unfold list_string_eqb. destruct (list_eq_dec string_dec l l'); [now subst | discriminate].
Qed.

Context {A : Type}.

Lemma find_last_None (P : A -> bool) (l : list A) :
  find_last P l = None <-> forall x, In x l -> P x = false.
Proof.
  induction l as [| a l IH]; cbn [find_last].
  - split; [intros _ x [] | reflexivity].
  - destruct (find_last P l) as [p |].
    + split; [discriminate |]. intros H.
      assert (E : Some p = None) by (apply IH; intros x Hx; apply H; right; exact Hx).
      discriminate E.
    + destruct (P a) eqn:Pa.
      * split; [discriminate |]. intros H. rewrite (H a (or_introl eq_refl)) in Pa.
        discriminate.
      * split; [| reflexivity]. intros _ x [<- | Hx]; [exact Pa |].
        apply IH; [reflexivity | exact Hx].
Qed.

Lemma find_last_Some (P : A -> bool) (l : list A) (p : nat) :
  find_last P l = Some p ->
  (exists x, nth_error l p = Some x /\ P x = true) /\
  (forall q y, (p < q)%nat -> nth_error l q = Some y -> P y = false).
Proof.
  revert p. induction l as [| a l IH]; intros p; cbn [find_last]; [discriminate |].
  destruct (find_last P l) as [p' |] eqn:E.
  - intros H. injection H as <-. destruct (IH p' eq_refl) as [Hx Hafter]. split.
    + exact Hx.
    + intros q y Hq Hy. destruct q as [| q]; [lia |].
      apply (Hafter q y); [lia | exact Hy].
  - destruct (P a) eqn:Pa; [| discriminate]. intros H. injection H as <-. split.
    + exists a. split; [reflexivity | exact Pa].
    + intros q y Hq Hy. destruct q as [| q]; [lia |].
      apply (proj1 (find_last_None P l) E). exact (nth_error_In l q Hy).
Qed.

Lemma take_no_new (fill : A) (indexer : list (option nat)) (v : list A) (a : A) :
  In a (take fill indexer v) -> In a v \/ a = fill.
Proof.
  unfold take. intros H. apply in_map_iff in H as (i & <- & _).
  destruct i as [p |]; [| right; reflexivity].
  destruct (Nat.lt_ge_cases p (length v)) as [Hlt | Hge].
  - left. apply nth_In, Hlt.
  - right. apply nth_overflow, Hge.
Qed.


End Reindex.

Lemma last_known_find_last (src : list Z) (t : Z) :
  last_known src t (find_last (fun x => x <=? t) src).
Proof.
  unfold last_known. destruct (find_last (fun x => x <=? t) src) as [p |] eqn:E.
  - apply find_last_Some in E as [(x & Hx & Px) Hafter]. split.
    + exists x. split; [exact Hx | lia].
    + intros q l Hq Hl. specialize (Hafter q l Hq Hl). cbn in Hafter. lia.
  - intros l Hl. pose proof (proj1 (find_last_None _ _) E l Hl) as H. cbn in H. lia.
Qed.

Lemma no_new_values_refl (c : column) : no_new_values c c.
Proof. destruct c; cbn; intros a Ha; left; exact Ha. Qed.

Lemma no_new_values_take (indexer : list (option nat)) (c : column) :
  no_new_values c (take_column indexer c).
Proof. destruct c; cbn; intros a Ha; exact (take_no_new _ _ _ _ Ha). Qed.

Lemma Forall2_map_r_same {A B : Type} (R : A -> B -> Prop) (f : A -> B) (l : list A) :
  (forall a, R a (f a)) -> Forall2 R l (map f l).
Proof. intros H. induction l; cbn; constructor; auto. Qed.

(** Label by label, the indexer of an increasing source picks the last
    known row. *)
Lemma get_indexer_pad_increasing (src target : list Z) (indexer : list (option nat)) :
  is_monotonic_increasing src = true ->
  get_indexer_pad src target = Ok indexer ->
  Forall2 (last_known src) target indexer.
Proof.
  intros Hinc. unfold get_indexer_pad. rewrite Hinc.
  destruct (negb (is_unique src)); [discriminate |].
  destruct (Nat.eqb_spec (length target) 0) as [E0 | _]; intros H; injection H as <-.
  - apply length_zero_iff_nil in E0. subst target. constructor.
  - apply Forall2_map_r_same. intros t. apply last_known_find_last.
Qed.

(** ** Re-indexing a table onto its own increasing index, by lookup *)

Lemma strictly_increasing_head (x : Z) (l : list Z) :
  strictly_increasing (x :: l) = true -> forall y, In y l -> x < y.
Proof.
  revert x. induction l as [| a l IH]; intros x H y Hy; [destruct Hy |].
  change (strictly_increasing (x :: a :: l))
    with ((x <? a) && strictly_increasing (a :: l))%bool in H.
  apply andb_prop in H as [Hxa Hl].
  apply Z.ltb_lt in Hxa. destruct Hy as [<- | Hy]; [exact Hxa |].
  specialize (IH a Hl y Hy). lia.
Qed.

Lemma strictly_increasing_tail (x : Z) (l : list Z) :
  strictly_increasing (x :: l) = true -> strictly_increasing l = true.
Proof.
  destruct l as [| a l]; [reflexivity |].
  change (strictly_increasing (x :: a :: l))
    with ((x <? a) && strictly_increasing (a :: l))%bool.
  intros H. apply andb_prop in H as [_ H]. exact H.
Qed.

Lemma strictly_increasing_unique (l : list Z) :
  strictly_increasing l = true -> is_unique l = true.
Proof.
  induction l as [| x l IH]; intros H; [reflexivity |].
  cbn [is_unique]. rewrite (IH (strictly_increasing_tail x l H)), andb_true_r.
  apply negb_true_iff. apply not_true_is_false. intros E.
  apply existsb_exists in E as (y & Hy & Exy). apply Z.eqb_eq in Exy. subst y.
  pose proof (strictly_increasing_head x l H x Hy). lia.
Qed.

Lemma strictly_increasing_monotonic (l : list Z) :
  strictly_increasing l = true -> is_monotonic_increasing l = true.
Proof.
  induction l as [| x l IH]; intros H; [reflexivity |].
  pose proof (IH (strictly_increasing_tail x l H)) as IH'.
  destruct l as [| a l]; [reflexivity |].
  change (is_monotonic_increasing (x :: a :: l))
    with ((x <=? a) && is_monotonic_increasing (a :: l))%bool.
  rewrite IH', andb_true_r.
  change (strictly_increasing (x :: a :: l))
    with ((x <? a) && strictly_increasing (a :: l))%bool in H.
  apply andb_prop in H as [H _].
  apply Z.ltb_lt in H. apply Z.leb_le. lia.
Qed.

Lemma find_last_own_label (l : list Z) (k : nat) (t : Z) :
  strictly_increasing l = true -> nth_error l k = Some t ->
  find_last (fun x => x <=? t) l = Some k.
Proof.
  revert k. induction l as [| x l IH]; intros k Hinc Hk; [destruct k; discriminate |].
  cbn [find_last]. destruct k as [| k].
  - injection Hk as ->.
    assert (E : find_last (fun x => x <=? t) l = None).
    { apply find_last_None. intros y Hy.
      pose proof (strictly_increasing_head t l Hinc y Hy). apply Z.leb_gt. lia. }
    rewrite E, Z.leb_refl. reflexivity.
  - rewrite (IH k (strictly_increasing_tail x l Hinc) Hk). reflexivity.
Qed.



Lemma reindex_plan_cases (src target : Index) (plan : option (list (option nat))) :
  reindex_plan src target = Ok plan ->
  match plan with
  | None => src = target
  | Some indexer =>
      src <> target /\
      ((exists s f t f', src = DatetimeIndex s f /\ target = DatetimeIndex t f' /\
                         get_indexer_pad s t = Ok indexer) \/
       (exists n m, src = RangeIndex n /\ target = RangeIndex m /\
                    get_indexer_pad (range_labels n) (range_labels m) = Ok indexer))
  end.
Proof.
  unfold reindex_plan. destruct (identical src target) eqn:I.
  - intros H. injection H as <-. apply identical_eq, I.
  - assert (Hne : src <> target)
      by (intros E; subst; rewrite identical_refl in I; discriminate).
    destruct src as [n | s f | s], target as [m | t f' | t]; try discriminate;
      intros H; apply bind_Ok in H as (i & Hi & H); injection H as <-;
      (split; [exact Hne |]).
    + right. now exists n, m.
    + left. now exists s, f, t, f'.
Qed.

Lemma reindex_plan_same (i : Index) : reindex_plan i i = Ok None.
Proof. unfold reindex_plan. now rewrite identical_refl. Qed.

(** What one alignment gives: the target index, the same columns, no new
    values, and on an increasing source the last known row per label. *)
Lemma reindex_ffill_carries_forward (df aligned : DataFrame) (target : Index) :
  reindex_ffill df target = Ok aligned ->
  reindex_ffill aligned target = Ok aligned /\
  df_index aligned = target /\
  df_columns aligned = df_columns df /\
  Forall2 no_new_values (df_data df) (df_data aligned) /\
  (forall src f tgt f',
      df_index df = DatetimeIndex src f ->
      target = DatetimeIndex tgt f' ->
      df_index df <> target ->
      is_monotonic_increasing src = true ->
      exists indexer,
        Forall2 (last_known src) tgt indexer /\
        df_data aligned = map (take_column indexer) (df_data df)).
Proof.
  unfold reindex_ffill at 1. intros H.
  apply bind_Ok in H as (plan & Hplan & H).
  apply reindex_plan_cases in Hplan. destruct plan as [indexer |].
  - injection H as <-. destruct Hplan as [Hne Hkinds].
    unfold reindex_ffill. cbn [df_index df_columns df_data].
    rewrite reindex_plan_same. cbn [bind].
    split; [reflexivity |]. split; [reflexivity |]. split; [reflexivity |]. split.
    + apply Forall2_map_r_same, no_new_values_take.
    + intros src f tgt f' Hsrc Htgt _ Hinc. exists indexer. split; [| reflexivity].
      destruct Hkinds as [(s & g & t & g' & Es & Et & Hi) | (n & m & Es & _)];
        [| rewrite Es in Hsrc; discriminate].
      rewrite Es in Hsrc. injection Hsrc as -> ->.
      rewrite Et in Htgt. injection Htgt as -> ->.
      exact (get_indexer_pad_increasing src tgt indexer Hinc Hi).
  - injection H as <-. subst target.
    unfold reindex_ffill. rewrite reindex_plan_same. cbn [bind].
    split; [reflexivity |]. split; [reflexivity |]. split; [reflexivity |]. split.
    + clear. induction (df_data df) as [| c l IH]; constructor;
        [apply no_new_values_refl | exact IH].
    + intros src f tgt f' _ _ Hne _. congruence.
Qed.

(** ** Alignment on a source that is not in time order *)










(** The sentiment series is aligned the same way. *)
Lemma series_alignment_is_idempotent (s aligned : Series) (target : Index) :
  series_reindex_ffill s target = Ok aligned ->
  series_reindex_ffill aligned target = Ok aligned /\
  s_index aligned = target /\
  no_new_values (s_values s) (s_values aligned).
Proof.
  unfold series_reindex_ffill at 1. intros H.
  apply bind_Ok in H as (plan & Hplan & H).
  apply reindex_plan_cases in Hplan. destruct plan as [indexer |].
  - injection H as <-. unfold series_reindex_ffill. cbn [s_index s_values].
    rewrite reindex_plan_same. cbn [bind].
    repeat split. apply no_new_values_take.
  - injection H as <-. subst target.
    unfold series_reindex_ffill. rewrite reindex_plan_same. cbn [bind].
    repeat split. apply no_new_values_refl.
Qed.

(** * The orchestrator *)

(** C7: [run_pipeline] runs the multivariate adapter, on the full price
    table, if and only if that table has more than one column.  Once the
    stages before it have passed (the two loaders, the degree days, their
    alignment, the optional sentiment column, and the two univariate
    adapters on the first price column), that test alone decides the run:
    - with more than one column the run is the adapter's call
      [fit_vecm_garch(price_df, forecast_steps=forecast_steps)]: when the
      adapter returns, the run returns with the adapter's forecast in the
      multivariate field, and when the adapter raises, the run raises the
      same exception;
    - otherwise the adapter is not called: the run returns whatever backend
      the adapter is bound to, with [None] in the multivariate field.
    In both cases the three other fields hold the forecasts of the two
    univariate adapters.  So a run that returns has its multivariate field
    populated exactly when the price table has more than one column. *)
Theorem multivariate_adapter_runs_iff_several_columns
  (env : forecasting_pipeline.imports) (fs : filesystem)
  (price_path weather_path : string) (sentiment_path : option string)
  (forecast_steps : Z)
  (price_df weather_df : DataFrame) (temperature : Series)
  (degree_days aligned exog : DataFrame) (target arimax_forecast : Series)
  (result_garch : arimax_garch.ArimaxGarchResult) :
  data_ingestion.load_price_data fs price_path = Ok price_df ->
  data_ingestion.load_weather_data fs weather_path = Ok weather_df ->
  getitem weather_df "temperature" = Ok temperature ->
  data_ingestion.compute_degree_days temperature data_ingestion.default_base_temperature
  = Ok degree_days ->
  reindex_ffill degree_days (df_index price_df) = Ok aligned ->
  match sentiment_path with
  | Some sentiment_path =>
      sentiment <- data_ingestion.load_sentiment_scores fs sentiment_path ;;
      sentiment <- series_reindex_ffill sentiment (df_index price_df) ;;
      Ok (setitem aligned "sentiment" (s_values sentiment))
  | None => Ok aligned
  end = Ok exog ->
  iloc_col price_df 0 = Ok target ->
  arimax.fit_arimax (forecasting_pipeline.arimax_ARIMA env) target (Some exog)
    arimax.default_order forecast_steps = Ok arimax_forecast ->
  arimax_garch.fit_arimax_garch
    (forecasting_pipeline.arimax_garch_ARIMA env)
    (forecasting_pipeline.arimax_garch_arch_model env)
    target (Some exog) arimax_garch.default_arima_order
    arimax_garch.default_garch_order forecast_steps = Ok result_garch ->
  ((1 < length (df_columns price_df))%nat ->
   (forall r,
      vecm_garch.fit_vecm_garch (forecasting_pipeline.vecm_garch_VECM env)
        price_df 0 1 None forecast_steps = Ok r ->
      forecasting_pipeline.run_pipeline env fs price_path weather_path sentiment_path
        forecast_steps
      = Ok {| forecasting_pipeline.arimax_forecast := Some arimax_forecast;
              forecasting_pipeline.arimax_garch_mean :=
                Some (arimax_garch.forecast_mean result_garch);
              forecasting_pipeline.arimax_garch_vol :=
                Some (arimax_garch.forecast_vol result_garch);
              forecasting_pipeline.vecm_forecast := Some (vecm_garch.forecast r) |}) /\
   (forall e,
      vecm_garch.fit_vecm_garch (forecasting_pipeline.vecm_garch_VECM env)
        price_df 0 1 None forecast_steps = Raise e ->
      forecasting_pipeline.run_pipeline env fs price_path weather_path sentiment_path
        forecast_steps
      = Raise e)) /\
  ((length (df_columns price_df) <= 1)%nat ->
   forecasting_pipeline.run_pipeline env fs price_path weather_path sentiment_path
     forecast_steps
   = Ok {| forecasting_pipeline.arimax_forecast := Some arimax_forecast;
           forecasting_pipeline.arimax_garch_mean :=
             Some (arimax_garch.forecast_mean result_garch);
           forecasting_pipeline.arimax_garch_vol :=
             Some (arimax_garch.forecast_vol result_garch);
           forecasting_pipeline.vecm_forecast := None |}) /\
  (forall res,
     forecasting_pipeline.run_pipeline env fs price_path weather_path sentiment_path
       forecast_steps = Ok res ->
     (forecasting_pipeline.vecm_forecast res <> None <->
      (1 < length (df_columns price_df))%nat)).
Proof.
  intros Hprice Hweather Htemp Hdd Halign Hexog Htarget Harimax Hgarch.
  unfold forecasting_pipeline.run_pipeline.
  rewrite Hprice. cbn [bind]. rewrite Hweather. cbn [bind].
  rewrite Htemp. cbn [bind]. rewrite Hdd. cbn [bind].
  rewrite Halign. cbn [bind]. rewrite Hexog. cbn [bind].
  rewrite Htarget. cbn [bind]. rewrite Harimax. cbn [bind].
  rewrite Hgarch. cbn [bind].
  destruct (Nat.ltb_spec 1 (length (df_columns price_df))) as [Hmany | Hfew].
  - split; [| split].
    + intros _. split.
      * intros r ->. reflexivity.
      * intros e ->. reflexivity.
    + intros Hone. lia.
    + intros res H.
      destruct (vecm_garch.fit_vecm_garch _ price_df 0 1 None forecast_steps) as [r | e];
        [| discriminate H].
      injection H as <-. cbn. split; [intros _; exact Hmany | discriminate].
  - cbn [bind option_map]. split; [| split].
    + intros Hmany. lia.
    + intros _. reflexivity.
    + intros res H. injection H as <-. cbn. split; [congruence | lia].
Qed.

Lemma multivariate_adapter_runs_iff_several_columns_witness :
  (exists forecast,
     forecasting_pipeline.run_pipeline nothing_installed example_fs
       "pair.csv" "weather.csv" None 24
     = Ok {| forecasting_pipeline.arimax_forecast := Some (pd_Series (repeat nan 24));
             forecasting_pipeline.arimax_garch_mean := Some (pd_Series (repeat nan 24));
             forecasting_pipeline.arimax_garch_vol := Some (pd_Series (repeat nan 24));
             forecasting_pipeline.vecm_forecast := Some forecast |} /\
     shape forecast = (24%nat, 2%nat)) /\
  forecasting_pipeline.run_pipeline only_rejecting_VECM example_fs
    "pair.csv" "weather.csv" None 24
  = Raise TypeError /\
  forecasting_pipeline.run_pipeline only_rejecting_VECM example_fs
    "prices.csv" "weather.csv" (Some "sentiment.csv") 24
  = Ok {| forecasting_pipeline.arimax_forecast := Some (pd_Series (repeat nan 24));
          forecasting_pipeline.arimax_garch_mean := Some (pd_Series (repeat nan 24));
          forecasting_pipeline.arimax_garch_vol := Some (pd_Series (repeat nan 24));
          forecasting_pipeline.vecm_forecast := None |}.
Proof.
  split; [| split].
  - eexists. split.
    + refine (proj1 (proj1 (multivariate_adapter_runs_iff_several_columns
                nothing_installed example_fs "pair.csv" "weather.csv" None 24
                _ _ _ _ _ _ _ _ _
                eq_refl eq_refl eq_refl eq_refl eq_refl eq_refl eq_refl eq_refl eq_refl)
                _) _ eq_refl).
      vm_compute. lia.
    + reflexivity.
  - refine (proj2 (proj1 (multivariate_adapter_runs_iff_several_columns
              only_rejecting_VECM example_fs "pair.csv" "weather.csv" None 24
              _ _ _ _ _ _ _ _ _
              eq_refl eq_refl eq_refl eq_refl eq_refl eq_refl eq_refl eq_refl eq_refl)
              _) _ eq_refl).
    vm_compute. lia.
  - refine (proj1 (proj2 (multivariate_adapter_runs_iff_several_columns
              only_rejecting_VECM example_fs "prices.csv" "weather.csv"
              (Some "sentiment.csv") 24
              _ _ _ _ _ _ _ _ _
              eq_refl eq_refl eq_refl eq_refl eq_refl eq_refl eq_refl eq_refl eq_refl))
              _).
    vm_compute. lia.
Defined.

(** With a spot and a futures series the adapter runs, here in degraded
    mode, and its placeholder table is in the result. *)
Example pipeline_on_two_series :
  exists res forecast,
    forecasting_pipeline.run_pipeline nothing_installed example_fs
      "pair.csv" "weather.csv" None 24 = Ok res /\
    forecasting_pipeline.vecm_forecast res = Some forecast /\
    shape forecast = (24%nat, 2%nat) /\
    df_index forecast = RangeIndex 24.
Proof.
  eexists. eexists. split; [vm_compute; reflexivity |].
  split; [reflexivity |]. split; reflexivity.
Qed.

(** One price series over 100 rows and a constant temperature of 18.0:
    the degree-day features are all zero, and without the estimation
    libraries the 24-step forecasts are 24 missing-value markers. *)
Example pipeline_on_constant_temperature :
  (exists weather temperature,
      data_ingestion.load_weather_data example_fs "weather_100.csv" = Ok weather /\
      getitem weather "temperature" = Ok temperature /\
      data_ingestion.compute_degree_days temperature
        data_ingestion.default_base_temperature
      = Ok {| df_index := DatetimeIndex (map (fun i => Z.of_nat i * Hour) (seq 0 100)) None;
              df_columns := ["HDD"; "CDD"];
              df_data := [FloatCol (repeat 0%float 100); FloatCol (repeat 0%float 100)] |}) /\
  forecasting_pipeline.run_pipeline nothing_installed example_fs
    "prices_100.csv" "weather_100.csv" None 24
  = Ok {| forecasting_pipeline.arimax_forecast := Some (pd_Series (repeat nan 24));
          forecasting_pipeline.arimax_garch_mean := Some (pd_Series (repeat nan 24));
          forecasting_pipeline.arimax_garch_vol := Some (pd_Series (repeat nan 24));
          forecasting_pipeline.vecm_forecast := None |}.
Proof.
  split.
  - eexists. eexists. split; [vm_compute; reflexivity |].
    split; vm_compute; reflexivity.
  - vm_compute. reflexivity.
Qed.

(** * The adapters with their backends present *)

Lemma slice_from_trailing {A : Type} (l : list A) (h : Z) :
  0 < h -> slice_from l (- h) = skipn (length l - Z.to_nat h) l.
Proof.
  intros H. unfold slice_from, slice_start.
  destruct (Z.ltb_spec (- h) 0) as [_ | Hge]; [| lia].
  f_equal. lia.
Qed.

Lemma slice_from_zero {A : Type} (l : list A) : slice_from l 0 = l.
Proof.
  unfold slice_from, slice_start. cbn [Z.ltb Z.compare].
  replace (Z.to_nat (Z.min 0 (Z.of_nat (length l)))) with O by lia. reflexivity.
Qed.

Lemma column_slice_from_trailing (c : column) (h : Z) :
  0 < h -> column_slice_from (- h) c = column_tail (Z.to_nat h) c.
Proof.
  intros H. destruct c as [v | v]; cbn [column_slice_from column_tail];
    now rewrite slice_from_trailing.
Qed.

Lemma column_tail_len (n : nat) (c : column) :
  column_len (column_tail n c) = Nat.min n (column_len c).
Proof.
  destruct c as [v | v]; cbn [column_tail column_len]; rewrite length_skipn; lia.
Qed.

Lemma index_slice_from_zero (i : Index) : index_slice_from 0 i = i.
Proof.
  destruct i as [n | l f | l]; cbn [index_slice_from]; rewrite ?slice_from_zero;
    try reflexivity.
  unfold slice_start. cbn [Z.ltb Z.compare].
  replace (Z.to_nat (Z.min 0 (Z.of_nat n))) with O by lia. now rewrite Nat.sub_0_r.
Qed.

Lemma iloc_rows_from_zero (df : DataFrame) : iloc_rows_from df 0 = df.
Proof.
  destruct df as [i names data]. unfold iloc_rows_from. cbn [df_index df_columns df_data].
  rewrite index_slice_from_zero. f_equal.
  induction data as [| c data IH]; [reflexivity |]. cbn [map]. rewrite IH. f_equal.
  destruct c as [v | v]; cbn [column_slice_from]; now rewrite slice_from_zero.
Qed.

(** X1: the exogenous rows the mean model gets for the forecast period are
    [exog.iloc[-forecast_steps:]]: for a positive horizon the last
    [forecast_steps] rows of every column (all rows when the table is
    shorter), and for a horizon of 0 the whole table, not an empty one. *)
Theorem future_regressors_are_trailing_rows
  (ARIMA : ARIMA_class) (series : Series) (exog : DataFrame) (order : Z * Z * Z) (h : Z) :
  arimax.fit_arimax (Some ARIMA) series (Some exog) order h
  = (model <- ARIMA series order (Some exog) ;;
     fitted <- arima_fit model ;;
     forecast <- get_forecast fitted h (Some (iloc_rows_from exog (- h))) ;;
     Ok (predicted_mean forecast)) /\
  df_columns (iloc_rows_from exog (- h)) = df_columns exog /\
  (0 < h ->
   df_data (iloc_rows_from exog (- h)) = map (column_tail (Z.to_nat h)) (df_data exog) /\
   Forall (fun c => column_len (column_tail (Z.to_nat h) c)
                    = Nat.min (Z.to_nat h) (column_len c)) (df_data exog)) /\
  (h = 0 -> iloc_rows_from exog (- h) = exog).
Proof.
  split; [reflexivity |]. split; [reflexivity |]. split.
  - intros H. split.
    + cbn [iloc_rows_from df_data]. apply map_ext. intros c.
      apply column_slice_from_trailing, H.
    + apply Forall_forall. intros c _. apply column_tail_len.
  - intros ->. apply iloc_rows_from_zero.
Qed.

(** X2: with both libraries present, the mean forecast of
    [fit_arimax_garch] is the forecast [fit_arimax] gives for the same
    series, exogenous table, order and horizon. *)
Theorem garch_mean_forecast_is_arimax_forecast
  (ARIMA : ARIMA_class) (arch_model : arch_model_function)
  (series : Series) (exog : option DataFrame) (order : Z * Z * Z)
  (garch_order : Z * Z) (h : Z) (r : arimax_garch.ArimaxGarchResult) :
  arimax_garch.fit_arimax_garch (Some ARIMA) (Some arch_model)
    series exog order garch_order h = Ok r ->
  arimax.fit_arimax (Some ARIMA) series exog order h
  = Ok (arimax_garch.forecast_mean r).
Proof.
  unfold arimax_garch.fit_arimax_garch, arimax.fit_arimax. intros H.
  apply bind_Ok in H as (model & -> & H). cbn [bind].
  apply bind_Ok in H as (fitted & -> & H). cbn [bind].
  apply bind_Ok in H as (garch & _ & H).
  apply bind_Ok in H as (garch_fit & _ & H).
  apply bind_Ok in H as (forecast & -> & H). cbn [bind].
  apply bind_Ok in H as (garch_forecast & _ & H).
  apply bind_Ok in H as (vol & _ & H).
  injection H as <-. reflexivity.
Qed.

Lemma garch_mean_forecast_is_arimax_forecast_witness :
  exists r,
    arimax_garch.fit_arimax_garch (Some (constant_ARIMA 30)) (Some two_step_arch_model)
      (pd_Series [29; 31]%float) None (1, 0, 1) (1, 1) 2 = Ok r /\
    arimax.fit_arimax (Some (constant_ARIMA 30)) (pd_Series [29; 31]%float) None (1, 0, 1) 2
    = Ok (arimax_garch.forecast_mean r) /\
    arimax_garch.forecast_mean r = pd_Series [30; 30]%float.
Proof.
  eexists. split; [reflexivity |]. split; [| reflexivity].
  exact (garch_mean_forecast_is_arimax_forecast
           (constant_ARIMA 30) two_step_arch_model
           (pd_Series [29; 31]%float) None (1, 0, 1) (1, 1) 2 _ eq_refl).
Defined.

(** X3: the model handles of a result tell degraded mode apart: those of
    [fit_arimax_garch] are both absent when one of its libraries is missing
    and both present otherwise, and the handle of [fit_vecm_garch] is absent
    exactly when its library is missing. *)
Theorem model_handles_tell_degraded_mode
  (ARIMA : option ARIMA_class) (arch_model : option arch_model_function)
  (VECM : option VECM_class) (series : Series) (table : DataFrame)
  (exog : option DataFrame) (order : Z * Z * Z) (garch_order : Z * Z)
  (det_order k_ar_diff : Z) (cointegr_rank : option Z) (h : Z)
  (r : arimax_garch.ArimaxGarchResult) (v : vecm_garch.VecmGarchResult) :
  arimax_garch.fit_arimax_garch ARIMA arch_model series exog order garch_order h = Ok r ->
  vecm_garch.fit_vecm_garch VECM table det_order k_ar_diff cointegr_rank h = Ok v ->
  (arimax_garch.mean_model r = None <-> ARIMA = None \/ arch_model = None) /\
  (arimax_garch.vol_model r = None <-> ARIMA = None \/ arch_model = None) /\
  (vecm_garch.vecm_model v = None <-> VECM = None).
Proof.
  intros Hr Hv. split; [| split].
  - destruct ARIMA as [A |], arch_model as [g |]; cbn in Hr;
      try (injection Hr as <-; cbn; tauto).
    apply bind_Ok in Hr as (model & _ & Hr). apply bind_Ok in Hr as (fitted & _ & Hr).
    apply bind_Ok in Hr as (garch & _ & Hr). apply bind_Ok in Hr as (garch_fit & _ & Hr).
    apply bind_Ok in Hr as (forecast & _ & Hr). apply bind_Ok in Hr as (gf & _ & Hr).
    apply bind_Ok in Hr as (vol & _ & Hr). injection Hr as <-. cbn.
    split; [discriminate | intros [E | E]; discriminate].
  - destruct ARIMA as [A |], arch_model as [g |]; cbn in Hr;
      try (injection Hr as <-; cbn; tauto).
    apply bind_Ok in Hr as (model & _ & Hr). apply bind_Ok in Hr as (fitted & _ & Hr).
    apply bind_Ok in Hr as (garch & _ & Hr). apply bind_Ok in Hr as (garch_fit & _ & Hr).
    apply bind_Ok in Hr as (forecast & _ & Hr). apply bind_Ok in Hr as (gf & _ & Hr).
    apply bind_Ok in Hr as (vol & _ & Hr). injection Hr as <-. cbn.
    split; [discriminate | intros [E | E]; discriminate].
  - destruct VECM as [V |]; cbn in Hv.
    + apply bind_Ok in Hv as (model & _ & Hv). apply bind_Ok in Hv as (res & _ & Hv).
      apply bind_Ok in Hv as (values & _ & Hv). apply bind_Ok in Hv as (index & _ & Hv).
      apply bind_Ok in Hv as (forecast_df & _ & Hv). injection Hv as <-. cbn.
      split; discriminate.
    + injection Hv as <-. cbn. tauto.
Qed.

Lemma model_handles_tell_degraded_mode_witness :
  exists r v,
    arimax_garch.fit_arimax_garch (Some (constant_ARIMA 30)) None
      (pd_Series [29; 31]%float) None (1, 0, 1) (1, 1) 3 = Ok r /\
    vecm_garch.fit_vecm_garch (Some (zero_VECM 2)) cointegrated_pair 0 1 None 3 = Ok v /\
    arimax_garch.mean_model r = None /\
    vecm_garch.vecm_model v <> None.
Proof.
  destruct (vecm_garch.fit_vecm_garch (Some (zero_VECM 2)) cointegrated_pair 0 1 None 3)
    as [v | e] eqn:E; [| vm_compute in E; discriminate E].
  eexists. exists v. split; [reflexivity |]. split; [reflexivity |].
  destruct (model_handles_tell_degraded_mode
              (Some (constant_ARIMA 30)) None (Some (zero_VECM 2))
              (pd_Series [29; 31]%float) cointegrated_pair None (1, 0, 1) (1, 1)
              0 1 None 3 _ v eq_refl E) as (Hmean & _ & Hvecm).
  split.
  - apply Hmean. right. reflexivity.
  - intros N. apply Hvecm in N. discriminate N.
Defined.

Lemma mapM_Forall2 {A B : Type} (f : A -> result B) (l : list A) (l' : list B) :
  mapM f l = Ok l' -> Forall2 (fun a b => f a = Ok b) l l'.
Proof.
  revert l'. induction l as [| a l IH]; intros l' H.
  - injection H as <-. constructor.
  - cbn [mapM] in H. apply bind_Ok in H as (b & Hb & H).
    apply bind_Ok in H as (bs & Hbs & H). injection H as <-.
    constructor; [exact Hb | apply IH, Hbs].
Qed.

Lemma mapM_length {A B : Type} (f : A -> result B) (l : list A) (l' : list B) :
  mapM f l = Ok l' -> length l' = length l.
Proof.
  intros H. apply mapM_Forall2 in H. symmetry. exact (Forall2_length H).
Qed.

Lemma infer_column_len (cells : list raw_cell) :
  column_len (infer_column cells) = length cells.
Proof.
  unfold infer_column. destruct (existsb is_text cells); cbn [column_len];
    [reflexivity | apply length_map].
Qed.



Lemma forecast_index_labels (init : list Z) (last : Z) (freq : option Z) (h : Z) :
  0 <= h ->
  vecm_garch.forecast_index (DatetimeIndex (init ++ [last]) freq) h
  = Ok (DatetimeIndex
          (map (fun i => last + Z.of_nat (S i) * match freq with Some f => f | None => Day end)
               (seq 0 (Z.to_nat h)))
          (Some match freq with Some f => f | None => Day end)).
Proof.
  intros H. unfold vecm_garch.forecast_index, index_last.
  rewrite rev_unit. cbn [bind]. unfold date_range.
  destruct (Z.ltb_spec (h + 1) 0) as [Hneg | _]; [lia |].
  cbn [bind index_tail]. f_equal. f_equal.
  replace (Z.to_nat (h + 1)) with (S (Z.to_nat h)) by lia.
  cbn [seq map tl]. rewrite <- seq_shift, map_map. reflexivity.
Qed.

Lemma ndarray_frame (values : list (list float)) (index : Index) (columns : list string)
  (df : DataFrame) :
  pd_DataFrame_ndarray values index columns = Ok df ->
  df_index df = index /\ df_columns df = columns /\
  length values = index_len index /\ frame_wf df.
Proof.
  unfold pd_DataFrame_ndarray.
  destruct (Nat.eqb_spec (length values) (index_len index)) as [Hrows | _];
    [| discriminate].
  cbn [andb]. destruct (forallb _ values); [| discriminate].
  intros H. injection H as <-. unfold frame_wf. cbn [df_index df_columns df_data].
  repeat split; try assumption.
  - now rewrite length_map, length_seq.
  - apply Forall_forall. intros c Hc. apply in_map_iff in Hc as (j & <- & _).
    cbn [column_len]. now rewrite length_map.
Qed.

(** X5: with the backend present and a horizon [h >= 0], whenever
    [fit_vecm_garch] returns on a table whose time index ends at [last], its
    forecast table is well formed, has [h] rows and the columns of the
    input, and is labelled by [last + step], [last + 2 step], ...,
    [last + h step], where [step] is the frequency of the input's index, and
    one day when the index has none. *)
Theorem fitted_vecm_forecast_table
  (VECM : VECM_class) (series : DataFrame) (init : list Z) (last : Z) (freq : option Z)
  (det_order k_ar_diff : Z) (cointegr_rank : option Z) (h : Z)
  (r : vecm_garch.VecmGarchResult) :
  0 <= h ->
  df_index series = DatetimeIndex (init ++ [last]) freq ->
  vecm_garch.fit_vecm_garch (Some VECM) series det_order k_ar_diff cointegr_rank h = Ok r ->
  df_index (vecm_garch.forecast r)
  = DatetimeIndex
      (map (fun i => last + Z.of_nat (S i) * match freq with Some f => f | None => Day end)
           (seq 0 (Z.to_nat h)))
      (Some match freq with Some f => f | None => Day end) /\
  shape (vecm_garch.forecast r) = (Z.to_nat h, length (df_columns series)) /\
  df_columns (vecm_garch.forecast r) = df_columns series /\
  frame_wf (vecm_garch.forecast r).
Proof.
  intros Hh Hindex. unfold vecm_garch.fit_vecm_garch. intros H.
  apply bind_Ok in H as (model & _ & H). apply bind_Ok in H as (res & _ & H).
  apply bind_Ok in H as (values & _ & H). apply bind_Ok in H as (index & Hi & H).
  apply bind_Ok in H as (forecast_df & Hdf & H). injection H as <-.
  cbn [vecm_garch.forecast].
  rewrite Hindex, forecast_index_labels in Hi by exact Hh. injection Hi as <-.
  apply ndarray_frame in Hdf as (Hidx & Hcols & _ & Hwf).
  unfold shape. rewrite Hidx, Hcols. cbn [index_len]. rewrite length_map, length_seq.
  repeat split; try assumption; apply Hwf.
Qed.

Lemma fitted_vecm_forecast_table_witness :
  exists r,
    vecm_garch.fit_vecm_garch (Some (zero_VECM 2)) cointegrated_pair 0 1 None 3 = Ok r /\
    df_index (vecm_garch.forecast r)
    = DatetimeIndex [200 * Hour; 201 * Hour; 202 * Hour] (Some Hour) /\
    shape (vecm_garch.forecast r) = (3%nat, 2%nat).
Proof.
  destruct (vecm_garch.fit_vecm_garch (Some (zero_VECM 2)) cointegrated_pair 0 1 None 3)
    as [r | e] eqn:E; [| vm_compute in E; discriminate E].
  exists r. split; [reflexivity |].
  destruct (fitted_vecm_forecast_table (zero_VECM 2) cointegrated_pair
              (map (fun i => Z.of_nat i * Hour) (seq 0 199)) (199 * Hour) (Some Hour)
              0 1 None 3 r ltac:(lia) eq_refl E) as (Hidx & Hshape & _).
  split; [exact Hidx | exact Hshape].
Defined.

(** * Shapes of loaded and derived tables *)

Lemma csv_column_len (f : csv_file) (j : nat) :
  length (csv_column f j) = length (csv_rows f).
Proof.
  unfold csv_column.
  destruct (forallb is_bool_or_missing _); now rewrite ?length_map.
Qed.

Lemma to_numeric_coerce_len (c : column) :
  column_len (to_numeric_coerce c) = column_len c.
Proof. destruct c as [v | v]; cbn; [reflexivity | apply length_map]. Qed.

Lemma astype_float_len (c : column) (v : list float) :
  astype_float c = Ok v -> length v = column_len c.
Proof.
  destruct c as [w | w]; cbn [astype_float column_len].
  - intros H. now injection H as <-.
  - apply mapM_length.
Qed.

Lemma read_csv_wf (fs : filesystem) (file_path : string) (f : csv_file) :
  fs file_path = Some f ->
  exists df,
    read_csv fs file_path = Ok df /\
    df_index df = DatetimeIndex (map fst (csv_rows f)) None /\
    df_columns df = csv_header f /\
    df_data df = map (fun j => infer_column (csv_column f j)) (seq 0 (length (csv_header f))) /\
    frame_wf df.
Proof.
  intros Hfile. unfold read_csv. rewrite Hfile. eexists. split; [reflexivity |].
  unfold frame_wf. cbn [df_index df_columns df_data index_len].
  repeat split.
  - now rewrite length_map, length_seq.
  - apply Forall_forall. intros c Hc. apply in_map_iff in Hc as (j & <- & _).
    now rewrite infer_column_len, csv_column_len, length_map.
Qed.

Lemma replace_nth_length {A : Type} (j : nat) (x : A) (l : list A) :
  length (replace_nth j x l) = length l.
Proof.
  revert j. induction l as [| a l IH]; intros j; [destruct j; reflexivity |].
  destruct j as [| j]; cbn; [reflexivity | now rewrite IH].
Qed.

Lemma replace_nth_Forall {A : Type} (P : A -> Prop) (j : nat) (x : A) (l : list A) :
  P x -> Forall P l -> Forall P (replace_nth j x l).
Proof.
  intros Hx H. revert j.
  induction H as [| a l Ha Hl IH]; intros j; [destruct j; constructor |].
  destruct j as [| j]; cbn; constructor; auto.
Qed.

Lemma getitem_wf (df : DataFrame) (name : string) (s : Series) :
  frame_wf df -> getitem df name = Ok s ->
  s_index s = df_index df /\ column_len (s_values s) = index_len (df_index df).
Proof.
  intros [_ Hcols]. unfold getitem.
  destruct (position name (df_columns df)) as [j |]; [| discriminate].
  destruct (nth_error (df_data df) j) as [c |] eqn:E; [| discriminate].
  intros H. injection H as <-. cbn [s_index s_values]. split; [reflexivity |].
  rewrite Forall_forall in Hcols. apply Hcols. exact (nth_error_In _ _ E).
Qed.

Lemma setitem_wf (df : DataFrame) (name : string) (c : column) :
  frame_wf df -> column_len c = index_len (df_index df) ->
  frame_wf (setitem df name c) /\ df_index (setitem df name c) = df_index df.
Proof.
  intros [Hn Hcols] Hc. unfold setitem, frame_wf.
  destruct (position name (df_columns df)) as [j |]; cbn [df_index df_columns df_data].
  - repeat split.
    + now rewrite replace_nth_length.
    + apply replace_nth_Forall; assumption.
  - repeat split.
    + rewrite !length_app. cbn. lia.
    + apply Forall_app. split; [exact Hcols | constructor; [exact Hc | constructor]].
Qed.

(** X6: the tables the loaders and the degree-day transform return are
    well formed.  [load_price_data] returns, for every readable file, one
    row per file row and one numeric column per value column of the header;
    [load_weather_data], when it returns, keeps the rows and columns of the
    file; [compute_degree_days], when it returns on a series with one value
    per label, gives exactly the columns [HDD] and [CDD] with one value per
    temperature, on the index of the series. *)
Theorem loaded_and_derived_tables_are_well_formed
  (fs : filesystem) (file_path : string) (f : csv_file) :
  fs file_path = Some f ->
  (exists df,
      data_ingestion.load_price_data fs file_path = Ok df /\
      frame_wf df /\
      shape df = (length (csv_rows f), length (csv_header f))) /\
  (forall df,
      data_ingestion.load_weather_data fs file_path = Ok df ->
      frame_wf df /\
      shape df = (length (csv_rows f), length (csv_header f))) /\
  (forall temperature base df,
      column_len (s_values temperature) = index_len (s_index temperature) ->
      data_ingestion.compute_degree_days temperature base = Ok df ->
      frame_wf df /\
      df_columns df = ["HDD"; "CDD"] /\
      shape df = (index_len (s_index temperature), 2%nat)).
Proof.
  intros Hfile.
  destruct (read_csv_wf fs file_path f Hfile) as (raw & Hraw & Hidx & Hnames & Hdata & Hwf).
  split; [| split].
  - unfold data_ingestion.load_price_data. rewrite Hraw. cbn [bind].
    eexists. split; [reflexivity |].
    unfold frame_wf, shape. cbn [df_index df_columns df_data].
    destruct Hwf as [Hn Hcols]. rewrite Hidx, Hnames in *. cbn [index_len] in *.
    rewrite !length_map in *. repeat split; try assumption.
    apply Forall_forall. intros c Hc. apply in_map_iff in Hc as (c0 & <- & Hc0).
    rewrite to_numeric_coerce_len. rewrite Forall_forall in Hcols. now apply Hcols.
  - intros df. unfold data_ingestion.load_weather_data. rewrite Hraw. cbn [bind].
    intros H. apply bind_Ok in H as (temperature & Ht & H). injection H as <-.
    destruct (getitem_wf raw "temperature" temperature Hwf Ht) as [_ Hlen].
    destruct (setitem_wf raw "temperature" (to_numeric_coerce (s_values temperature)) Hwf)
      as [Hwf' Hidx']; [now rewrite to_numeric_coerce_len |].
    split; [exact Hwf' |].
    unfold shape. rewrite Hidx', Hidx. cbn [index_len]. rewrite length_map. f_equal.
    unfold getitem in Ht. unfold setitem.
    destruct (position "temperature" (df_columns raw)); [| discriminate].
    cbn [df_columns]. now rewrite Hnames.
  - intros temperature base df Hlen. unfold data_ingestion.compute_degree_days.
    intros H. apply bind_Ok in H as (temp & Htemp & H). injection H as <-.
    apply astype_float_len in Htemp.
    unfold frame_wf, shape. cbn [df_index df_columns df_data length].
    repeat split.
    repeat constructor; cbn [column_len]; rewrite length_map; congruence.
Qed.

Lemma loaded_and_derived_tables_are_well_formed_witness :
  example_fs "weather.csv" = Some weather_with_station /\
  exists df,
    data_ingestion.load_price_data example_fs "weather.csv" = Ok df /\
    frame_wf df /\
    shape df = (2%nat, 2%nat).
Proof.
  split; [reflexivity |].
  exact (proj1 (loaded_and_derived_tables_are_well_formed
                  example_fs "weather.csv" weather_with_station eq_refl)).
Defined.

Lemma get_indexer_pad_length (src target : list Z) (indexer : list (option nat)) :
  get_indexer_pad src target = Ok indexer -> length indexer = length target.
Proof.
  unfold get_indexer_pad.
  destruct (negb (is_unique src)); [discriminate |].
  destruct (Nat.eqb_spec (length target) 0) as [E0 | _];
    [intros H; injection H as <-; now rewrite E0 |].
  destruct (is_monotonic_increasing src);
    [| destruct (is_monotonic_decreasing src); [| discriminate]];
    intros H; injection H as <-; apply length_map.
Qed.

Lemma take_column_len (indexer : list (option nat)) (c : column) :
  column_len (take_column indexer c) = length indexer.
Proof. destruct c as [v | v]; cbn [take_column column_len]; apply length_map. Qed.

Lemma reindex_plan_length (src target : Index) (indexer : list (option nat)) :
  reindex_plan src target = Ok (Some indexer) -> length indexer = index_len target.
Proof.
  intros H. apply reindex_plan_cases in H as [_ H].
  destruct H as [(s & f & t & f' & -> & -> & Hi) | (n & m & -> & -> & Hi)];
    apply get_indexer_pad_length in Hi; cbn [index_len]; rewrite Hi.
  - reflexivity.
  - unfold range_labels. now rewrite length_map, length_seq.
Qed.

(** X7: forward-fill alignment of a well-formed table gives a well-formed
    table with exactly one row per target label and the same columns: no
    row is dropped and none is added, whatever the two indexes share. *)
Theorem alignment_gives_one_row_per_target_label
  (df aligned : DataFrame) (target : Index) :
  frame_wf df ->
  reindex_ffill df target = Ok aligned ->
  frame_wf aligned /\
  shape aligned = (index_len target, length (df_columns df)).
Proof.
  intros Hwf. unfold reindex_ffill. intros H.
  apply bind_Ok in H as (plan & Hplan & H). destruct plan as [indexer |].
  - injection H as <-. apply reindex_plan_length in Hplan.
    unfold frame_wf, shape. cbn [df_index df_columns df_data].
    destruct Hwf as [Hn _]. rewrite length_map. repeat split; try assumption.
    apply Forall_forall. intros c Hc. apply in_map_iff in Hc as (c0 & <- & _).
    now rewrite take_column_len.
  - injection H as <-. apply reindex_plan_cases in Hplan. cbn in Hplan.
    split; [exact Hwf |]. unfold shape. now rewrite Hplan.
Qed.

Lemma alignment_gives_one_row_per_target_label_witness :
  exists aligned,
    reindex_ffill sparse_degree_days
      (DatetimeIndex [0; 1 * Hour; 2 * Hour; 3 * Hour; 4 * Hour] None) = Ok aligned /\
    frame_wf aligned /\
    shape aligned = (5%nat, 2%nat).
Proof.
  eexists. split; [reflexivity |].
  apply (alignment_gives_one_row_per_target_label sparse_degree_days _
           (DatetimeIndex [0; 1 * Hour; 2 * Hour; 3 * Hour; 4 * Hour] None)).
  - split; [reflexivity | repeat constructor].
  - reflexivity.
Defined.

Lemma take_nth {A : Type} (fill : A) (indexer : list (option nat)) (v : list A)
  (j k : nat) :
  nth_error indexer j = Some (Some k) ->
  nth j (take fill indexer v) fill = nth k v fill.
Proof.
  intros H. unfold take. apply nth_error_nth.
  rewrite nth_error_map, H. reflexivity.
Qed.

Lemma same_row_refl (k : nat) (c : column) : same_row k k c c.
Proof. destruct c; reflexivity. Qed.

Lemma same_row_take (indexer : list (option nat)) (j k : nat) (c : column) :
  nth_error indexer j = Some (Some k) -> same_row k j c (take_column indexer c).
Proof.
  intros H. destruct c as [v | v]; cbn [take_column same_row]; now apply take_nth.
Qed.

Lemma Forall2_same {A : Type} (R : A -> A -> Prop) (l : list A) :
  (forall a, R a a) -> Forall2 R l l.
Proof. intros H. induction l; constructor; auto. Qed.

(** X8: alignment keeps the observations at matching timestamps: when the
    source table's time index is strictly increasing and a target label
    equals a source label, the aligned row at that target label holds, in
    every column, the values of the source row at that label. *)
Theorem alignment_keeps_matching_observations
  (df aligned : DataFrame) (src : list Z) (f : option Z) (tgt : list Z) (f' : option Z)
  (k j : nat) (t : Z) :
  df_index df = DatetimeIndex src f ->
  strictly_increasing src = true ->
  reindex_ffill df (DatetimeIndex tgt f') = Ok aligned ->
  nth_error src k = Some t ->
  nth_error tgt j = Some t ->
  Forall2 (same_row k j) (df_data df) (df_data aligned).
Proof.
  intros Hindex Hinc Halign Hk Hj. unfold reindex_ffill in Halign.
  apply bind_Ok in Halign as (plan & Hplan & H).
  apply reindex_plan_cases in Hplan. destruct plan as [indexer |].
  - injection H as <-. cbn [df_data]. destruct Hplan as [_ Hkinds].
    destruct Hkinds as [(s & g & t' & g' & Es & Et & Hi) | (n & m & Es & _)];
      [| rewrite Es in Hindex; discriminate].
    rewrite Es in Hindex. injection Hindex as -> ->. injection Et as -> ->.
    unfold get_indexer_pad in Hi.
    rewrite (strictly_increasing_unique src Hinc),
      (strictly_increasing_monotonic src Hinc) in Hi.
    cbn [negb] in Hi.
    assert (E0 : Nat.eqb (@length Z t') 0 = false)
      by (destruct t'; [destruct j; discriminate Hj | reflexivity]).
    rewrite E0 in Hi.
    injection Hi as <-.
    apply Forall2_map_r_same. intros c. apply same_row_take.
    rewrite nth_error_map, Hj. cbn [option_map].
    now rewrite (find_last_own_label src k t Hinc Hk).
  - injection H as <-. rewrite Hindex in Hplan. injection Hplan as -> ->.
    pose proof (find_last_own_label tgt k t Hinc Hk) as Ek.
    rewrite (find_last_own_label tgt j t Hinc Hj) in Ek. injection Ek as ->.
    apply Forall2_same, same_row_refl.
Qed.

Lemma alignment_keeps_matching_observations_witness :
  exists aligned,
    reindex_ffill sparse_degree_days
      (DatetimeIndex [0; 1 * Hour; 2 * Hour; 3 * Hour; 4 * Hour] None) = Ok aligned /\
    Forall2 (same_row 1 3) (df_data sparse_degree_days) (df_data aligned).
Proof.
  eexists. split; [reflexivity |].
  exact (alignment_keeps_matching_observations sparse_degree_days _
           [1 * Hour; 3 * Hour] None [0; 1 * Hour; 2 * Hour; 3 * Hour; 4 * Hour] None
           1 3 (3 * Hour) eq_refl eq_refl eq_refl eq_refl eq_refl).
Defined.

Lemma identical_false (a b : Index) : a <> b -> identical a b = false.
Proof.
  intros H. destruct (identical a b) eqn:E; [| reflexivity].
  apply identical_eq in E. contradiction.
Qed.

(** X9: alignment refuses a source table whose time index has a repeated
    label, whatever the target; and one whose labels are neither increasing
    nor decreasing, for every target that has a label.  Unless the target
    has the labels of the source index, the call raises [ValueError] and
    returns no table.  Onto an empty target a source without repeated
    labels is aligned whatever its order, and gives a table without rows. *)
Theorem alignment_refuses_unordered_source
  (df : DataFrame) (src : list Z) (f : option Z) (tgt : list Z) (f' : option Z) :
  df_index df = DatetimeIndex src f ->
  src <> tgt ->
  (is_unique src = false ->
   reindex_ffill df (DatetimeIndex tgt f') = Raise ValueError) /\
  (is_monotonic_increasing src = false -> is_monotonic_decreasing src = false ->
   tgt <> [] ->
   reindex_ffill df (DatetimeIndex tgt f') = Raise ValueError) /\
  (is_unique src = true -> tgt = [] ->
   reindex_ffill df (DatetimeIndex tgt f')
   = Ok {| df_index := DatetimeIndex [] f';
           df_columns := df_columns df;
           df_data := map (take_column []) (df_data df) |}).
Proof.
  intros Hindex Hne. unfold reindex_ffill, reindex_plan. rewrite Hindex.
  rewrite identical_false by congruence. unfold get_indexer_pad.
  split; [| split].
  - intros ->. reflexivity.
  - intros -> -> Htgt. destruct (is_unique src); [| reflexivity].
    destruct tgt; [contradiction | reflexivity].
  - intros -> ->. reflexivity.
Qed.

Lemma alignment_refuses_unordered_source_witness :
  reindex_ffill shuffled_degree_days (DatetimeIndex [1 * Hour; 2 * Hour] None)
  = Raise ValueError /\
  reindex_ffill shuffled_degree_days (DatetimeIndex [] None)
  = Ok {| df_index := DatetimeIndex [] None;
          df_columns := ["HDD"; "CDD"];
          df_data := [FloatCol []; FloatCol []] |}.
Proof.
  split.
  - apply (alignment_refuses_unordered_source shuffled_degree_days
             [2 * Hour; 1 * Hour; 3 * Hour] None [1 * Hour; 2 * Hour] None eq_refl);
      [discriminate | reflexivity | reflexivity | discriminate].
  - apply (alignment_refuses_unordered_source shuffled_degree_days
             [2 * Hour; 1 * Hour; 3 * Hour] None [] None eq_refl);
      [discriminate | reflexivity | reflexivity].
Defined.

(** * Runs of the orchestrator *)

Lemma load_price_data_ok (fs : filesystem) (file_path : string) (f : csv_file) :
  fs file_path = Some f ->
  data_ingestion.load_price_data fs file_path
  = Ok {| df_index := DatetimeIndex (map fst (csv_rows f)) None;
          df_columns := csv_header f;
          df_data := map (fun j => FloatCol (map coerce_cell (csv_column f j)))
                         (seq 0 (length (csv_header f))) |}.
Proof.
  intros Hfile. unfold data_ingestion.load_price_data, read_csv. rewrite Hfile.
  cbn [bind df_index df_columns df_data]. rewrite map_map. do 2 f_equal.
  apply map_ext. intros j. apply to_numeric_coerce_infer.
Qed.

Lemma load_weather_data_ok (fs : filesystem) (file_path : string) (f : csv_file) (j : nat) :
  fs file_path = Some f ->
  position "temperature" (csv_header f) = Some j ->
  exists df,
    data_ingestion.load_weather_data fs file_path = Ok df /\
    frame_wf df /\
    getitem df "temperature"
    = Ok {| s_index := DatetimeIndex (map fst (csv_rows f)) None;
            s_values := FloatCol (map coerce_cell (csv_column f j)) |}.
Proof.
  intros Hfile Hj. pose proof (position_lt _ _ _ Hj) as Hlt.
  destruct (read_csv_wf fs file_path f Hfile) as (raw & Hraw & Hidx & Hnames & Hdata & Hwf).
  unfold data_ingestion.load_weather_data. rewrite Hraw. cbn [bind].
  assert (Ht : getitem raw "temperature"
               = Ok {| s_index := df_index raw;
                       s_values := infer_column (csv_column f j) |}).
  { unfold getitem. rewrite Hnames, Hj, Hdata.
    now rewrite nth_error_map_seq by exact Hlt. }
  rewrite Ht. cbn [bind s_values]. rewrite to_numeric_coerce_infer.
  eexists. split; [reflexivity |]. split.
  - apply setitem_wf; [exact Hwf |].
    cbn [column_len]. rewrite length_map, csv_column_len, Hidx. cbn. now rewrite length_map.
  - unfold getitem, setitem. rewrite Hnames, Hj. cbn [df_columns df_data df_index].
    rewrite Hj, Hidx, Hdata.
    now rewrite nth_error_replace_nth by (rewrite length_map, length_seq; exact Hlt).
Qed.

Lemma reindex_ffill_increasing_source (df : DataFrame) (src : list Z) (f : option Z)
  (tgt : list Z) (f' : option Z) :
  df_index df = DatetimeIndex src f ->
  strictly_increasing src = true ->
  exists aligned, reindex_ffill df (DatetimeIndex tgt f') = Ok aligned.
Proof.
  intros Hindex Hinc. unfold reindex_ffill, reindex_plan. rewrite Hindex.
  destruct (identical (DatetimeIndex src f) (DatetimeIndex tgt f')).
  - eexists. reflexivity.
  - unfold get_indexer_pad.
    rewrite (strictly_increasing_unique src Hinc),
      (strictly_increasing_monotonic src Hinc).
    cbn [negb]. destruct (Nat.eqb (length tgt) 0); eexists; reflexivity.
Qed.

(** X10: with no estimation library installed and no sentiment file, the
    pipeline returns on every readable price file with at least one value
    column and every readable weather file that has a [temperature] column
    and strictly increasing timestamps: the three univariate forecasts are
    [forecast_steps] missing-value markers each, and the multivariate field
    holds the placeholder table exactly when the price file has more than
    one value column. *)
Theorem degraded_pipeline_returns
  (fs : filesystem) (price_path weather_path : string)
  (prices weather : csv_file) (h : Z) :
  fs price_path = Some prices ->
  csv_header prices <> [] ->
  fs weather_path = Some weather ->
  In "temperature" (csv_header weather) ->
  strictly_increasing (map fst (csv_rows weather)) = true ->
  forecasting_pipeline.run_pipeline nothing_installed fs price_path weather_path None h
  = Ok {| forecasting_pipeline.arimax_forecast := Some (pd_Series (py_repeat nan h));
          forecasting_pipeline.arimax_garch_mean := Some (pd_Series (py_repeat nan h));
          forecasting_pipeline.arimax_garch_vol := Some (pd_Series (py_repeat nan h));
          forecasting_pipeline.vecm_forecast :=
            if (1 <? length (csv_header prices))%nat
            then Some (pd_DataFrame_dict
                         (map (fun col => (col, py_repeat nan h)) (csv_header prices))
                         (csv_header prices))
            else None |}.
Proof.
  intros Hprices Hcols Hweather Htemp Hinc.
  destruct (position_in _ _ Htemp) as [j Hj].
  destruct (load_weather_data_ok fs weather_path weather j Hweather Hj)
    as (weather_df & Hload & _ & Hget).
  unfold forecasting_pipeline.run_pipeline.
  rewrite (load_price_data_ok fs price_path prices Hprices), Hload. cbn [bind].
  rewrite Hget. cbn [bind]. unfold data_ingestion.compute_degree_days.
  cbn [s_values astype_float bind s_index df_index].
  match goal with
  | |- context [reindex_ffill ?d (DatetimeIndex ?t ?g)] =>
      destruct (reindex_ffill_increasing_source d _ None t g eq_refl Hinc) as [exog ->]
  end.
  cbn [bind]. unfold iloc_col. cbn [df_data df_columns].
  destruct (csv_header prices) as [| name names] eqn:Eh; [congruence |].
  cbn [length seq map nth_error bind].
  unfold nothing_installed. cbn [forecasting_pipeline.arimax_ARIMA
    forecasting_pipeline.arimax_garch_ARIMA forecasting_pipeline.arimax_garch_arch_model
    forecasting_pipeline.vecm_garch_VECM arimax.fit_arimax arimax_garch.fit_arimax_garch
    vecm_garch.fit_vecm_garch bind arimax_garch.forecast_mean arimax_garch.forecast_vol].
  destruct (1 <? S (length names))%nat; reflexivity.
Qed.

Lemma degraded_pipeline_returns_witness :
  exists res,
    forecasting_pipeline.run_pipeline nothing_installed example_fs
      "pair.csv" "weather_100.csv" None 24 = Ok res /\
    forecasting_pipeline.arimax_forecast res = Some (pd_Series (repeat nan 24)) /\
    option_map shape (forecasting_pipeline.vecm_forecast res) = Some (24%nat, 2%nat).
Proof.
  eexists. split.
  - apply (degraded_pipeline_returns example_fs "pair.csv" "weather_100.csv"
             spot_and_future_prices hundred_temperatures 24).
    + reflexivity.
    + discriminate.
    + reflexivity.
    + left. reflexivity.
    + reflexivity.
  - split; reflexivity.
Defined.

(** X11: the pipeline does not recover from an unreadable or unusable
    input, whatever libraries are installed: a missing price file raises
    [FileNotFoundError], so does a missing weather file once the price file
    is read, and a weather file without a [temperature] column raises
    [KeyError]. *)
Theorem pipeline_hard_failures
  (env : forecasting_pipeline.imports) (fs : filesystem)
  (price_path weather_path : string) (sentiment_path : option string) (h : Z) :
  (fs price_path = None ->
   forecasting_pipeline.run_pipeline env fs price_path weather_path sentiment_path h
   = Raise FileNotFoundError) /\
  (forall prices,
      fs price_path = Some prices -> fs weather_path = None ->
      forecasting_pipeline.run_pipeline env fs price_path weather_path sentiment_path h
      = Raise FileNotFoundError) /\
  (forall prices weather,
      fs price_path = Some prices -> fs weather_path = Some weather ->
      ~ In "temperature" (csv_header weather) ->
      forecasting_pipeline.run_pipeline env fs price_path weather_path sentiment_path h
      = Raise (KeyError "temperature")).
Proof.
  unfold forecasting_pipeline.run_pipeline. split; [| split].
  - intros Hp. unfold data_ingestion.load_price_data, read_csv. now rewrite Hp.
  - intros prices Hp Hw. rewrite (load_price_data_ok fs price_path prices Hp).
    cbn [bind]. unfold data_ingestion.load_weather_data, read_csv. now rewrite Hw.
  - intros prices weather Hp Hw Hno.
    rewrite (load_price_data_ok fs price_path prices Hp). cbn [bind].
    unfold data_ingestion.load_weather_data, read_csv. rewrite Hw. cbn [bind].
    unfold getitem. cbn [df_columns].
    destruct (position "temperature" (csv_header weather)) as [j |] eqn:Ej;
      [| reflexivity].
    exfalso. apply Hno. clear - Ej. revert j Ej.
    induction (csv_header weather) as [| n names IH]; intros j Ej; [discriminate |].
    cbn [position] in Ej. destruct (String.eqb_spec "temperature" n) as [<- | _].
    + left. reflexivity.
    + right. destruct (position "temperature" names) as [k |]; [| discriminate].
      exact (IH k eq_refl).
Qed.

Lemma load_weather_data_wf (fs : filesystem) (file_path : string) (df : DataFrame) :
  data_ingestion.load_weather_data fs file_path = Ok df -> frame_wf df.
Proof.
  unfold data_ingestion.load_weather_data. intros H.
  apply bind_Ok in H as (raw & Hraw & H).
  apply bind_Ok in H as (temperature & Ht & H). injection H as <-.
  assert (Hwf : frame_wf raw).
  { unfold read_csv in Hraw. destruct (fs file_path) as [f |] eqn:Hfile; [| discriminate].
    destruct (read_csv_wf fs file_path f Hfile) as (raw' & Hraw' & _ & _ & _ & Hwf).
    unfold read_csv in Hraw'. rewrite Hfile in Hraw'. congruence. }
  destruct (getitem_wf raw "temperature" temperature Hwf Ht) as [_ Hlen].
  apply setitem_wf; [exact Hwf | now rewrite to_numeric_coerce_len].
Qed.

Lemma compute_degree_days_wf (temperature : Series) (base : float) (df : DataFrame) :
  column_len (s_values temperature) = index_len (s_index temperature) ->
  data_ingestion.compute_degree_days temperature base = Ok df ->
  frame_wf df /\ df_index df = s_index temperature /\ df_columns df = ["HDD"; "CDD"].
Proof.
  intros Hlen. unfold data_ingestion.compute_degree_days. intros H.
  apply bind_Ok in H as (temp & Htemp & H). injection H as <-.
  apply astype_float_len in Htemp.
  unfold frame_wf. cbn [df_index df_columns df_data length].
  repeat split.
  repeat constructor; cbn [column_len]; rewrite length_map; congruence.
Qed.

Lemma reindex_ffill_wf (df aligned : DataFrame) (target : Index) :
  frame_wf df -> reindex_ffill df target = Ok aligned -> frame_wf aligned.
Proof.
  intros Hwf. unfold reindex_ffill. intros H.
  apply bind_Ok in H as (plan & Hplan & H). destruct plan as [indexer |].
  - injection H as <-. apply reindex_plan_length in Hplan.
    unfold frame_wf. cbn [df_index df_columns df_data].
    destruct Hwf as [Hn _]. rewrite length_map. split; [exact Hn |].
    apply Forall_forall. intros c Hc. apply in_map_iff in Hc as (c0 & <- & _).
    now rewrite take_column_len.
  - now injection H as <-.
Qed.

Lemma load_sentiment_scores_wf (fs : filesystem) (file_path : string) (s : Series) :
  data_ingestion.load_sentiment_scores fs file_path = Ok s ->
  column_len (s_values s) = index_len (s_index s).
Proof.
  unfold data_ingestion.load_sentiment_scores. intros H.
  apply bind_Ok in H as (raw & Hraw & H).
  apply bind_Ok in H as (first & Hfirst & H).
  apply bind_Ok in H as (values & Hvalues & H). injection H as <-.
  cbn [s_values s_index column_len]. rewrite (astype_float_len _ _ Hvalues).
  unfold read_csv in Hraw. destruct (fs file_path) as [f |] eqn:Hfile; [| discriminate].
  destruct (read_csv_wf fs file_path f Hfile) as (raw' & Hraw' & _ & _ & _ & Hwf).
  unfold read_csv in Hraw'. rewrite Hfile in Hraw'.
  assert (raw' = raw) by congruence. subst raw'.
  unfold iloc_col in Hfirst.
  destruct (nth_error (df_data raw) 0) as [c |] eqn:Ec; [| discriminate].
  injection Hfirst as <-. cbn [s_values s_index].
  destruct Hwf as [_ Hcols]. rewrite Forall_forall in Hcols.
  apply Hcols. exact (nth_error_In _ _ Ec).
Qed.

Lemma series_reindex_ffill_len (s aligned : Series) (target : Index) :
  column_len (s_values s) = index_len (s_index s) ->
  series_reindex_ffill s target = Ok aligned ->
  column_len (s_values aligned) = index_len target.
Proof.
  intros Hlen. unfold series_reindex_ffill. intros H.
  apply bind_Ok in H as (plan & Hplan & H). destruct plan as [indexer |].
  - injection H as <-. cbn [s_values]. rewrite take_column_len.
    exact (reindex_plan_length _ _ _ Hplan).
  - injection H as <-. apply reindex_plan_cases in Hplan. cbn in Hplan. congruence.
Qed.

(** X12: whenever the pipeline returns, both univariate adapters were run
    on the first price column with one and the same exogenous table, and
    their forecasts are the fields of the result.  That table is well
    formed, carries the index of the price table (one row per price
    timestamp), and has the columns [HDD] and [CDD], followed by
    [sentiment] exactly when a sentiment path is given. *)
Theorem univariate_adapters_share_the_aligned_features
  (env : forecasting_pipeline.imports) (fs : filesystem)
  (price_path weather_path : string) (sentiment_path : option string)
  (h : Z) (res : forecasting_pipeline.PipelineResult) :
  forecasting_pipeline.run_pipeline env fs price_path weather_path sentiment_path h
  = Ok res ->
  exists price_df target exog arimax_forecast result_garch,
    data_ingestion.load_price_data fs price_path = Ok price_df /\
    iloc_col price_df 0 = Ok target /\
    frame_wf exog /\
    df_index exog = df_index price_df /\
    df_columns exog
    = ["HDD"; "CDD"] ++ match sentiment_path with
                        | Some _ => ["sentiment"]
                        | None => []
                        end /\
    arimax.fit_arimax (forecasting_pipeline.arimax_ARIMA env) target (Some exog)
      arimax.default_order h = Ok arimax_forecast /\
    forecasting_pipeline.arimax_forecast res = Some arimax_forecast /\
    arimax_garch.fit_arimax_garch
      (forecasting_pipeline.arimax_garch_ARIMA env)
      (forecasting_pipeline.arimax_garch_arch_model env)
      target (Some exog) arimax_garch.default_arima_order
      arimax_garch.default_garch_order h = Ok result_garch /\
    forecasting_pipeline.arimax_garch_mean res
    = Some (arimax_garch.forecast_mean result_garch) /\
    forecasting_pipeline.arimax_garch_vol res
    = Some (arimax_garch.forecast_vol result_garch).
Proof.
  unfold forecasting_pipeline.run_pipeline. intros H.
  apply bind_Ok in H as (price_df & Hprice & H).
  apply bind_Ok in H as (weather_df & Hweather & H).
  apply bind_Ok in H as (temperature & Htemp & H).
  apply bind_Ok in H as (degree_days & Hdd & H).
  apply bind_Ok in H as (exog0 & Halign & H).
  apply bind_Ok in H as (exog & Hexog & H).
  apply bind_Ok in H as (target & Htarget & H).
  apply bind_Ok in H as (arimax_forecast & Harimax & H).
  apply bind_Ok in H as (result_garch & Hgarch & H).
  apply bind_Ok in H as (vecm_res & _ & H). injection H as <-.
  exists price_df, target, exog, arimax_forecast, result_garch.
  pose proof (load_weather_data_wf _ _ _ Hweather) as Hwwf.
  destruct (getitem_wf _ _ _ Hwwf Htemp) as [Hti Htl].
  destruct (compute_degree_days_wf temperature _ degree_days
              ltac:(rewrite Hti; exact Htl) Hdd) as (Hdwf & _ & Hdcols).
  pose proof (reindex_ffill_wf _ _ _ Hdwf Halign) as H0wf.
  destruct (reindex_ffill_carries_forward _ _ _ Halign) as (_ & H0idx & H0cols & _).
  rewrite Hdcols in H0cols.
  assert (Hx : frame_wf exog /\ df_index exog = df_index price_df /\
               df_columns exog = ["HDD"; "CDD"] ++ match sentiment_path with
                                                   | Some _ => ["sentiment"]
                                                   | None => []
                                                   end).
  { destruct sentiment_path as [path |].
    - apply bind_Ok in Hexog as (sentiment & Hs & Hexog).
      apply bind_Ok in Hexog as (aligned & Ha & Hexog). injection Hexog as <-.
      pose proof (series_reindex_ffill_len _ _ _ (load_sentiment_scores_wf _ _ _ Hs) Ha)
        as Hal.
      destruct (setitem_wf exog0 "sentiment" (s_values aligned) H0wf
                  ltac:(rewrite H0idx; exact Hal)) as [Hwf Hidx].
      split; [exact Hwf |]. split; [now rewrite Hidx |].
      unfold setitem. rewrite H0cols. reflexivity.
    - injection Hexog as <-. split; [exact H0wf |]. split; [exact H0idx |].
      rewrite H0cols. reflexivity. }
  destruct Hx as (Hwf & Hidx & Hcols).
  repeat (split; [assumption || reflexivity |]). reflexivity.
Qed.

Lemma univariate_adapters_share_the_aligned_features_witness :
  exists res exog,
    forecasting_pipeline.run_pipeline nothing_installed example_fs
      "prices.csv" "weather.csv" (Some "sentiment.csv") 24 = Ok res /\
    df_columns exog = ["HDD"; "CDD"; "sentiment"] /\
    df_index exog = DatetimeIndex [1 * Hour; 2 * Hour; 3 * Hour] None.
Proof.
  destruct (forecasting_pipeline.run_pipeline nothing_installed example_fs
              "prices.csv" "weather.csv" (Some "sentiment.csv") 24) as [res | e] eqn:E;
    [| vm_compute in E; discriminate E].
  destruct (univariate_adapters_share_the_aligned_features _ _ _ _ _ _ _ E)
    as (price_df & target & exog & a & g & Hprice & _ & _ & Hidx & Hcols & _).
  exists res, exog. split; [reflexivity |]. split; [exact Hcols |].
  rewrite Hidx. vm_compute in Hprice. injection Hprice as <-. reflexivity.
Defined.

(** * More on the degree-day transform and on sentiment scores *)

(** X13: for a base [b] and a temperature [t] whose difference is a
    number, both degree-day parts compare equal to zero exactly when
    [t == b]; each is then a zero, of either sign.  Below the base the
    heating part is the positive difference [b - t] and the cooling part is
    [0.0]; above the base the cooling part is the positive difference
    [t - b] and the heating part is [0.0]. *)
Theorem degree_days_vanish_exactly_at_base (b t : float) :
  PrimFloat.is_nan (b - t) = false ->
  ((t =? b)%float = true <->
   (data_ingestion.HDD b t =? 0)%float = true /\
   (data_ingestion.CDD b t =? 0)%float = true) /\
  ((t <? b)%float = true ->
   data_ingestion.HDD b t = (b - t)%float /\
   (0 <? data_ingestion.HDD b t)%float = true /\
   data_ingestion.CDD b t = 0%float) /\
  ((b <? t)%float = true ->
   data_ingestion.CDD b t = (t - b)%float /\
   (0 <? data_ingestion.CDD b t)%float = true /\
   data_ingestion.HDD b t = 0%float).
Proof.
  intros H.
  assert (Heq : (t =? b)%float
                = match SFcompare (Prim2SF b) (Prim2SF t) with
                  | Some Eq => true
                  | _ => false
                  end).
  { rewrite eqb_spec. unfold SFeqb.
    rewrite (SFcompare_antisym (Prim2SF b) (Prim2SF t)).
    destruct (SFcompare (Prim2SF b) (Prim2SF t)) as [[]|]; reflexivity. }
  assert (Hbelow : (t <? b)%float
                   = match SFcompare (Prim2SF b) (Prim2SF t) with
                     | Some Gt => true
                     | _ => false
                     end).
  { rewrite ltb_spec. unfold SFltb.
    rewrite (SFcompare_antisym (Prim2SF b) (Prim2SF t)).
    destruct (SFcompare (Prim2SF b) (Prim2SF t)) as [[]|]; reflexivity. }
  assert (Habove : (b <? t)%float
                   = match SFcompare (Prim2SF b) (Prim2SF t) with
                     | Some Lt => true
                     | _ => false
                     end).
  { rewrite ltb_spec. reflexivity. }
  rewrite Heq, Hbelow, Habove.
  destruct (degree_day_cases b t H) as [E Hh Ch Hc | E Hh Ch Hc Cc | E Hh Hc Cc];
    rewrite E, Hh, Hc;
    rewrite ?(eqb_zero_r (b - t)), ?(eqb_zero_r (t - b)), ?ltb_zero_l, ?Ch, ?Cc;
    repeat split; intros; try reflexivity; try discriminate;
    repeat match goal with
           | N : _ /\ _ |- _ => destruct N
           end;
    discriminate.
Qed.

Lemma degree_days_vanish_exactly_at_base_witness :
  PrimFloat.is_nan (0 - neg_zero) = false /\
  (data_ingestion.HDD 0 neg_zero =? 0)%float = true /\
  (data_ingestion.CDD 0 neg_zero =? 0)%float = true.
Proof.
  split; [reflexivity |].
  exact (proj1 (proj1 (degree_days_vanish_exactly_at_base 0 neg_zero eq_refl)) eq_refl).
Defined.

Lemma SFcompare_opp (x y : spec_float) :
  SFcompare (SFopp x) (SFopp y) = SFcompare y x.
Proof.
  destruct x as [sx | sx | | sx mx ex], y as [sy | sy | | sy my ey];
    try destruct sx; try destruct sy; try reflexivity; cbn [SFopp SFcompare negb].
  - rewrite (Z.compare_antisym ex ey), (ZC4 my mx).
    destruct (ex ?= ey); cbn [CompOpp]; rewrite ?CompOpp_involutive; reflexivity.
  - rewrite (Z.compare_antisym ex ey), (ZC4 my mx).
    destruct (ex ?= ey); cbn [CompOpp]; rewrite ?CompOpp_involutive; reflexivity.
Qed.

Lemma nonnegative_cases (c : float) :
  (0 <=? c)%float = true ->
  Prim2SF c = S754_infinity false \/
  (exists s, Prim2SF c = S754_zero s) \/
  (exists m e, Prim2SF c = S754_finite false m e).
Proof.
  rewrite leb_spec, Prim2SF_zero.
  destruct (Prim2SF c) as [s | s | | s m e]; try destruct s; cbn; try discriminate;
    intros _; eauto.
Qed.

Lemma minus_one_below_nonnegative (c : float) :
  (0 <=? c)%float = true -> (-1 <=? c)%float = true.
Proof.
  intros H. rewrite leb_spec.
  destruct (nonnegative_cases c H) as [-> | [[s ->] | (m & e & ->)]]; reflexivity.
Qed.

Lemma opposite_of_nonnegative_below_one (c : float) :
  (0 <=? c)%float = true -> (- c <=? 1)%float = true.
Proof.
  intros H. rewrite leb_spec, opp_spec.
  destruct (nonnegative_cases c H) as [-> | [[s ->] | (m & e & ->)]];
    try destruct s; reflexivity.
Qed.

Lemma opposite_above_minus_one (c : float) :
  (c <=? 1)%float = true -> (-1 <=? - c)%float = true.
Proof.
  intros H. rewrite leb_spec in *. rewrite opp_spec.
  change (Prim2SF (-1)) with (SFopp (Prim2SF 1)).
  unfold SFleb in *. now rewrite SFcompare_opp.
Qed.

(** X14: a score stays within the confidence it comes from: whenever the
    classifier's confidence lies in [0, 1], the signed score lies in
    [-1, 1], whatever the label. *)
Theorem signed_score_is_within_unit_range (r : classification) :
  (0 <=? score r)%float = true ->
  (score r <=? 1)%float = true ->
  (-1 <=? sentiment_integration.signed_score r)%float = true /\
  (sentiment_integration.signed_score r <=? 1)%float = true.
Proof.
  intros Hlo Hhi. unfold sentiment_integration.signed_score.
  destruct (String.eqb (lower (label r)) "positive").
  - split; [apply minus_one_below_nonnegative, Hlo | exact Hhi].
  - destruct (String.eqb (lower (label r)) "negative").
    + split; [apply opposite_above_minus_one, Hhi
             | apply opposite_of_nonnegative_below_one, Hlo].
    + split; reflexivity.
Qed.

Lemma signed_score_is_within_unit_range_witness :
  (0 <=? 0.7)%float = true /\ (0.7 <=? 1)%float = true /\
  (-1 <=? sentiment_integration.signed_score {| label := "NEGATIVE"; score := 0.7 |})%float
  = true.
Proof.
  split; [reflexivity |]. split; [reflexivity |].
  exact (proj1 (signed_score_is_within_unit_range
                  {| label := "NEGATIVE"; score := 0.7 |} eq_refl eq_refl)).
Defined.

(** X15: whenever [compute_finbert_sentiment] returns, with or without its
    backend, the series has exactly one score per input text and carries
    the default positional index over the texts. *)
Theorem sentiment_series_has_one_score_per_text
  (pipeline : option pipeline_function) (texts : list string) (s : Series) :
  sentiment_integration.compute_finbert_sentiment pipeline texts = Ok s ->
  s_index s = RangeIndex (length texts) /\
  column_len (s_values s) = length texts.
Proof.
  unfold sentiment_integration.compute_finbert_sentiment.
  destruct pipeline as [p |]; intros H.
  - apply bind_Ok in H as (clf & _ & H). apply bind_Ok in H as (scores & Hs & H).
    injection H as <-. apply mapM_length in Hs.
    cbn [pd_Series s_index s_values column_len]. now rewrite Hs.
  - injection H as <-. cbn [pd_Series s_index s_values column_len].
    unfold py_repeat. rewrite repeat_length. split; [f_equal |]; lia.
Qed.

Lemma sentiment_series_has_one_score_per_text_witness :
  exists s,
    sentiment_integration.compute_finbert_sentiment (Some patchy_pipeline)
      ["Prices rally"; "Storage is full"] = Ok s /\
    s_index s = RangeIndex 2 /\
    column_len (s_values s) = 2%nat.
Proof.
  eexists. split; [reflexivity |].
  exact (sentiment_series_has_one_score_per_text (Some patchy_pipeline)
           ["Prices rally"; "Storage is full"] _ eq_refl).
Defined.

(** X16: with the backend present, a text for which the classifier gives
    no classification at all makes the whole call raise [IndexError], when
    the classifier itself raises on no text: no score is made up for that
    text and no partial series is returned. *)
Theorem sentiment_fails_on_unclassified_text
  (pipeline : pipeline_function) (sentiment_pipeline : classifier)
  (texts : list string) (text : string) :
  pipeline "sentiment-analysis" "ProsusAI/finbert" = Ok sentiment_pipeline ->
  (forall t, In t texts -> exists results, sentiment_pipeline t = Ok results) ->
  In text texts ->
  sentiment_pipeline text = Ok [] ->
  sentiment_integration.compute_finbert_sentiment (Some pipeline) texts
  = Raise IndexError.
Proof.
  intros Hload Hall Hin Hnone.
  unfold sentiment_integration.compute_finbert_sentiment. rewrite Hload. cbn [bind].
  assert (E : mapM (sentiment_integration.score_text sentiment_pipeline) texts
              = Raise IndexError).
  { induction texts as [| t texts IH]; [destruct Hin |].
    cbn [mapM]. unfold sentiment_integration.score_text at 1.
    destruct (Hall t (or_introl eq_refl)) as [results Ht]. rewrite Ht. cbn [bind].
    destruct results as [| r results]; [reflexivity |]. cbn [bind].
    destruct Hin as [-> | Hin]; [rewrite Hnone in Ht; discriminate |].
    rewrite IH; [reflexivity | | exact Hin].
    intros t' Ht'. apply Hall. right. exact Ht'. }
  rewrite E. reflexivity.
Qed.

Lemma sentiment_fails_on_unclassified_text_witness :
  sentiment_integration.compute_finbert_sentiment (Some patchy_pipeline)
    ["Prices rally"; "?"; "Storage is full"] = Raise IndexError.
Proof.
  apply (sentiment_fails_on_unclassified_text patchy_pipeline
           (fun text => if String.eqb text "?" then Ok []
                        else Ok [{| label := "Positive"; score := 0.5 |}])
           ["Prices rally"; "?"; "Storage is full"] "?").
  - reflexivity.
  - intros t _. destruct (String.eqb t "?"); eexists; reflexivity.
  - right. left. reflexivity.
  - reflexivity.
Defined.

Lemma position_None (name : string) (names : list string) :
  ~ In name names -> position name names = None.
Proof.
  induction names as [| n names IH]; intros H; [reflexivity |].
  cbn [position]. destruct (String.eqb_spec name n) as [-> | _].
  - exfalso. apply H. left. reflexivity.
  - rewrite IH; [reflexivity |]. intros Hin. apply H. right. exact Hin.
Qed.

(** X17: the loaders raise on what they cannot read.  A missing file makes
    each of the three loaders raise [FileNotFoundError]; a file without a
    [temperature] column makes [load_weather_data] raise [KeyError]; and a
    file without any value column makes [load_sentiment_scores] raise
    [IndexError], while [load_price_data] returns it as a table without
    columns. *)
Theorem loaders_hard_failures (fs : filesystem) (file_path : string) :
  (fs file_path = None ->
   data_ingestion.load_price_data fs file_path = Raise FileNotFoundError /\
   data_ingestion.load_weather_data fs file_path = Raise FileNotFoundError /\
   data_ingestion.load_sentiment_scores fs file_path = Raise FileNotFoundError) /\
  (forall f,
      fs file_path = Some f -> ~ In "temperature" (csv_header f) ->
      data_ingestion.load_weather_data fs file_path = Raise (KeyError "temperature")) /\
  (forall f,
      fs file_path = Some f -> csv_header f = [] ->
      data_ingestion.load_sentiment_scores fs file_path = Raise IndexError /\
      data_ingestion.load_price_data fs file_path
      = Ok {| df_index := DatetimeIndex (map fst (csv_rows f)) None;
              df_columns := [];
              df_data := [] |}).
Proof.
  split; [| split].
  - intros H.
    unfold data_ingestion.load_price_data, data_ingestion.load_weather_data,
      data_ingestion.load_sentiment_scores, read_csv.
    rewrite H. repeat split.
  - intros f Hf Hno. unfold data_ingestion.load_weather_data, read_csv, getitem.
    rewrite Hf. cbn [bind df_columns]. now rewrite (position_None _ _ Hno).
  - intros f Hf Hcols. split.
    + unfold data_ingestion.load_sentiment_scores, read_csv. rewrite Hf, Hcols.
      reflexivity.
    + rewrite (load_price_data_ok fs file_path f Hf), Hcols. reflexivity.
Qed.
